(** * your_ecommerce_project: cart, checkout and payment reconciliation

    A shallow embedding of [app.py]: the SQLAlchemy models, the unit of
    work ([db.session]) with its commits and rollbacks, and the request
    handlers [add_to_cart], [update_cart], [remove_from_cart], [checkout]
    and [razorpay_webhook], followed by the properties of the checkout and
    payment state machine.

    Conventions.
    - A table is the list of its rows in rowid order; a query walks it in
      that order.
    - Python [int] is [Z]; [db.Float] columns are IEEE binary64 numbers
      (Rocq's primitive floats); [db.String] columns are [string].
    - Each request runs alone against the store (one handler call is one
      step of the system).
    - Library calls whose results the handlers only pass on or compare
      ([sum] on floats, the HMAC digest, [json.loads], SQLite's
      conversions between storage classes) are parameters. *)

From Stdlib Require Import ZArith List String Bool Lia.
From Stdlib Require Import Floats.PrimFloat Floats.SpecFloat Floats.FloatOps.
Import ListNotations.

Set Warnings "-register-all".
Open Scope string_scope.
Open Scope Z_scope.

(** ** Python values *)

(** The values [json.loads] produces. *)
Inductive pyval : Type :=
| PNone
| PBool (b : bool)
| PInt (n : Z)
| PFloat (f : float)
| PStr (s : string)
| PList (items : list pyval)
| PDict (entries : list (string * pyval)).

(** The exceptions the handlers can meet. All of them derive from
    [Exception]; only [JSONDecodeError] and [ValueError] are told apart
    by an [except] clause of the source. *)
Inductive exn : Type :=
| KeyError
| TypeError
| AttributeError
| ValueError
| OverflowError
| JSONDecodeError
| InterfaceError.

Inductive result (A : Type) : Type :=
| Ok (a : A)
| Raise (e : exn).
Arguments Ok {A} a.
Arguments Raise {A} e.

Definition bind {A B : Type} (m : result A) (k : A -> result B) : result B :=
  match m with
  | Ok a => k a
  | Raise e => Raise e
  end.

Declare Scope py_scope.
Delimit Scope py_scope with py.
Notation "x <- m ;; k" := (bind m (fun x => k))
  (at level 100, m at next level, right associativity) : py_scope.

(** [bool(v)]: the truth value an [if] tests. *)
Definition truthy (v : pyval) : bool :=
  match v with
  | PNone => false
  | PBool b => b
  | PInt n => negb (n =? 0)
  | PFloat f => negb (PrimFloat.eqb f PrimFloat.zero)
  | PStr s => negb (String.eqb s "")
  | PList items => match items with [] => false | _ => true end
  | PDict entries => match entries with [] => false | _ => true end
  end.

Fixpoint assoc (k : string) (entries : list (string * pyval)) : option pyval :=
  match entries with
  | [] => None
  | (k', v) :: rest => if String.eqb k' k then Some v else assoc k rest
  end.

(** [v[k]] with a string key: [KeyError] on a dict without the key,
    [TypeError] on anything that is not a dict. *)
Definition getitem (v : pyval) (k : string) : result pyval :=
  match v with
  | PDict entries =>
      match assoc k entries with
      | Some x => Ok x
      | None => Raise KeyError
      end
  | _ => Raise TypeError
  end.

(** [v.get(k)]: [None] for a missing key; only dicts have the method. *)
Definition dict_get (v : pyval) (k : string) : result pyval :=
  match v with
  | PDict entries =>
      match assoc k entries with
      | Some x => Ok x
      | None => Ok PNone
      end
  | _ => Raise AttributeError
  end.

(** [v == s] for a string literal [s]. *)
Definition eq_str (v : pyval) (s : string) : bool :=
  match v with
  | PStr s' => String.eqb s' s
  | _ => false
  end.

(** ** Floats *)

(** [float(n)] as arithmetic does it for an [int] operand: the nearest
    binary64 number. *)
Definition float_of_int (n : Z) : float :=
  SF2Prim (binary_normalize prec emax n 0 false).

(** [int(x)]: truncation toward zero; [OverflowError] on an infinity and
    [ValueError] on a NaN. *)
Definition int_of_float (x : float) : result Z :=
  match Prim2SF x with
  | S754_zero _ => Ok 0
  | S754_infinity _ => Raise OverflowError
  | S754_nan => Raise ValueError
  | S754_finite s m e =>
      let magnitude :=
        if 0 <=? e then Z.pos m * 2 ^ e else Z.pos m / 2 ^ (- e) in
      Ok (if s then - magnitude else magnitude)
  end.

(** ** Database models *)

Module User.
Record t : Type := mk {
  id : Z;
  username : string;
  email : string;
  password_hash : string;
  address : option string;
  contact_number : option string;
  is_admin : bool
}.
End User.

Module Product.
Record t : Type := mk {
  id : Z;
  name : string;
  description : option string;
  price : float;
  stock : Z;
  image_url : option string
}.
End Product.

Module CartItem.
Record t : Type := mk {
  id : Z;
  user_id : Z;
  product_id : Z;
  quantity : Z
}.
End CartItem.

Module Order.
Record t : Type := mk {
  id : Z;
  user_id : Z;
  order_date : Z;
  total_amount : float;
  status : string;
  delivery_address : string;
  contact_number : string;
  payment_mode : string;
  transaction_id : option string
}.
End Order.

Module OrderItem.
Record t : Type := mk {
  id : Z;
  order_id : Z;
  product_id : Z;
  quantity : Z;
  price : float
}.
End OrderItem.

(** The store: one list of rows per table. *)
Record DB : Type := mkDB {
  users : list User.t;
  products : list Product.t;
  cart_items : list CartItem.t;
  orders : list Order.t;
  order_items : list OrderItem.t
}.

(** ** Queries and row updates *)

(** [Model.query.get(pk)] and [get_or_404]: the row with that primary
    key, if any. *)
Definition User_get (db : DB) (pk : Z) : option User.t :=
  find (fun u => User.id u =? pk) (users db).

Definition Product_get (db : DB) (pk : Z) : option Product.t :=
  find (fun p => Product.id p =? pk) (products db).

Definition CartItem_get (db : DB) (pk : Z) : option CartItem.t :=
  find (fun c => CartItem.id c =? pk) (cart_items db).

(** [CartItem.query.filter_by(user_id=user_id).all()] *)
Definition cart_of (db : DB) (user_id : Z) : list CartItem.t :=
  filter (fun c => CartItem.user_id c =? user_id) (cart_items db).

(** [CartItem.query.filter_by(user_id=user_id, product_id=product_id).first()] *)
Definition cart_item_for (db : DB) (user_id product_id : Z) : option CartItem.t :=
  find (fun c => (CartItem.user_id c =? user_id) && (CartItem.product_id c =? product_id))
       (cart_items db).

(** The [product] relationship of a cart item: [None] when the row it
    points to is gone. *)
Definition product_of (db : DB) (item : CartItem.t) : option Product.t :=
  Product_get db (CartItem.product_id item).

(** The rowid SQLite gives the next inserted row of a table whose
    primary key is a plain [INTEGER PRIMARY KEY]: one more than the
    largest in use. *)
Definition next_rowid (ids : list Z) : Z :=
  match ids with
  | [] => 1
  | i :: rest => fold_left Z.max rest i + 1
  end.

Definition with_users (f : list User.t -> list User.t) (db : DB) : DB :=
  mkDB (f (users db)) (products db) (cart_items db) (orders db) (order_items db).

Definition with_products (f : list Product.t -> list Product.t) (db : DB) : DB :=
  mkDB (users db) (f (products db)) (cart_items db) (orders db) (order_items db).

Definition with_cart_items (f : list CartItem.t -> list CartItem.t) (db : DB) : DB :=
  mkDB (users db) (products db) (f (cart_items db)) (orders db) (order_items db).

Definition with_orders (f : list Order.t -> list Order.t) (db : DB) : DB :=
  mkDB (users db) (products db) (cart_items db) (f (orders db)) (order_items db).

Definition with_order_items (f : list OrderItem.t -> list OrderItem.t) (db : DB) : DB :=
  mkDB (users db) (products db) (cart_items db) (orders db) (f (order_items db)).

(** [user.address = a; user.contact_number = c] *)
Definition set_profile (a c : string) (u : User.t) : User.t :=
  User.mk (User.id u) (User.username u) (User.email u) (User.password_hash u)
          (Some a) (Some c) (User.is_admin u).

Definition set_stock (n : Z) (p : Product.t) : Product.t :=
  Product.mk (Product.id p) (Product.name p) (Product.description p)
             (Product.price p) n (Product.image_url p).

Definition set_quantity (n : Z) (c : CartItem.t) : CartItem.t :=
  CartItem.mk (CartItem.id c) (CartItem.user_id c) (CartItem.product_id c) n.

Definition set_status (st : string) (o : Order.t) : Order.t :=
  Order.mk (Order.id o) (Order.user_id o) (Order.order_date o) (Order.total_amount o)
           st (Order.delivery_address o) (Order.contact_number o)
           (Order.payment_mode o) (Order.transaction_id o).

Definition set_transaction_id (tid : string) (o : Order.t) : Order.t :=
  Order.mk (Order.id o) (Order.user_id o) (Order.order_date o) (Order.total_amount o)
           (Order.status o) (Order.delivery_address o) (Order.contact_number o)
           (Order.payment_mode o) (Some tid).

(** An attribute assignment on a loaded row reaches the table as
    [UPDATE ... WHERE id = pk]. *)
Definition update_where {A : Type} (key : A -> Z) (pk : Z) (f : A -> A) (rows : list A) : list A :=
  map (fun r => if key r =? pk then f r else r) rows.

(** [db.session.delete(row)]: [DELETE ... WHERE id = pk]. *)
Definition delete_where {A : Type} (key : A -> Z) (pk : Z) (rows : list A) : list A :=
  filter (fun r => negb (key r =? pk)) rows.

(** ** The unit of work *)

(** [db.session] during one request: the store as committed, the store
    as the open transaction sees it, and the snapshots committed so
    far, oldest first. *)
Record Session : Type := mkSession {
  durable : DB;
  pending : DB;
  commits : list DB
}.

Definition begin (db : DB) : Session := mkSession db db [].

(** A change made through the session; visible to later queries of the
    same request, not yet durable. *)
Definition change (f : DB -> DB) (s : Session) : Session :=
  mkSession (durable s) (f (pending s)) (commits s).

(** [db.session.commit()] *)
Definition commit (s : Session) : Session :=
  mkSession (pending s) (pending s) (commits s ++ [pending s])%list.

(** [db.session.rollback()] *)
Definition rollback (s : Session) : Session :=
  mkSession (durable s) (durable s) (commits s).

(** ** Responses *)

Inductive response : Type :=
| Redirect (endpoint : string)       (* redirect(url_for(endpoint, ...)) *)
| Render (template : string)         (* render_template(template, ...) *)
| Reply (body : string) (code : Z)   (* return body, code *)
| Abort (code : Z).                  (* get_or_404, or an exception no handler catches *)

(** What a request leaves behind: the session is discarded with the
    request, so only what was committed remains. *)
Definition store_after (r : response * Session) : DB := durable (snd r).

(** ** Cart handlers *)

(** [add_to_cart(product_id)]; [session_user] is [session.get('user_id')]. *)
Definition add_to_cart (session_user : option Z) (product_id : Z) (db : DB)
  : response * Session :=
  let s := begin db in
  match session_user with
  | None => (Redirect "login", s)
  | Some user_id =>
      match Product_get db product_id with
      | None => (Abort 404, s)
      | Some product =>
          if Product.stock product <=? 0 then (Redirect "product_detail", s)
          else
            match cart_item_for db user_id product_id with
            | Some cart_item =>
                if CartItem.quantity cart_item >=? Product.stock product
                then (Redirect "view_cart", commit s)
                else
                  (Redirect "view_cart",
                   commit (change (with_cart_items
                     (update_where CartItem.id (CartItem.id cart_item)
                        (set_quantity (CartItem.quantity cart_item + 1)))) s))
            | None =>
                let new_cart_item :=
                  CartItem.mk (next_rowid (map CartItem.id (cart_items db)))
                              user_id product_id 1 in
                (Redirect "view_cart",
                 commit (change (with_cart_items (fun rows => (rows ++ [new_cart_item])%list)) s))
            end
      end
  end.

(** [update_cart(item_id)]; [new_quantity] is the outcome of
    [int(request.form['quantity'])], [None] standing for its
    [ValueError]. *)
Definition update_cart (session_user : option Z) (item_id : Z) (new_quantity : option Z)
  (db : DB) : response * Session :=
  let s := begin db in
  match session_user with
  | None => (Redirect "login", s)
  | Some user_id =>
      match CartItem_get db item_id with
      | None => (Abort 404, s)
      | Some cart_item =>
          if negb (CartItem.user_id cart_item =? user_id) then (Redirect "view_cart", s)
          else
            match new_quantity with
            | None => (Redirect "view_cart", s)
            | Some new_quantity =>
                if new_quantity <? 0 then (Redirect "view_cart", commit s)
                else if new_quantity =? 0 then
                  (Redirect "view_cart",
                   commit (change (with_cart_items (delete_where CartItem.id item_id)) s))
                else
                  match product_of db cart_item with
                  | None => (Abort 500, s)
                  | Some product =>
                      let q :=
                        if new_quantity >? Product.stock product
                        then Product.stock product else new_quantity in
                      (Redirect "view_cart",
                       commit (change (with_cart_items
                         (update_where CartItem.id item_id (set_quantity q))) s))
                  end
            end
      end
  end.

(** [remove_from_cart(item_id)] *)
Definition remove_from_cart (session_user : option Z) (item_id : Z) (db : DB)
  : response * Session :=
  let s := begin db in
  match session_user with
  | None => (Redirect "login", s)
  | Some user_id =>
      match CartItem_get db item_id with
      | None => (Abort 404, s)
      | Some cart_item =>
          if negb (CartItem.user_id cart_item =? user_id) then (Redirect "view_cart", s)
          else
            (Redirect "view_cart",
             commit (change (with_cart_items (delete_where CartItem.id item_id)) s))
      end
  end.

(** ** The application's surroundings *)

(** What the application is run with: whether [import razorpay]
    succeeded, and the two [app.config] entries the gateway needs. *)
Record Env : Type := mkEnv {
  razorpay : bool;
  RAZORPAY_KEY_ID : option string;
  RAZORPAY_KEY_SECRET : option string
}.

(** [config.py] as it is in the repository: the [Config] class defines
    neither Razorpay key, so [app.config.get] answers [None] for both. *)
Definition Config (razorpay_installed : bool) : Env :=
  mkEnv razorpay_installed None None.

(** The truth value of [app.config.get(key)]. *)
Definition configured (v : option string) : bool :=
  match v with
  | Some s => negb (String.eqb s "")
  | None => false
  end.

Module CheckoutForm.
Record t : Type := mk {
  delivery_address : string;
  contact_number : string;
  payment_mode : string
}.
End CheckoutForm.

(** [request.method] with, for a POST, the three fields the handler
    reads from [request.form]. *)
Inductive method : Type :=
| GET
| POST (form : CheckoutForm.t).

(** The terms of [sum(item.product.price * item.quantity for item in
    cart_items)], in cart order; the generator stops at the first item
    whose product is gone. *)
Fixpoint cart_amounts (db : DB) (cart : list CartItem.t) : result (list float) :=
  match cart with
  | [] => Ok []
  | item :: rest =>
      match product_of db item with
      | None => Raise AttributeError
      | Some product =>
          match cart_amounts db rest with
          | Raise e => Raise e
          | Ok amounts =>
              Ok (PrimFloat.mul (Product.price product)
                                (float_of_int (CartItem.quantity item)) :: amounts)
          end
      end
  end.

(** The stock check: the first cart item that asks for more than its
    product has, if any. *)
Fixpoint first_short (db : DB) (cart : list CartItem.t) : result (option CartItem.t) :=
  match cart with
  | [] => Ok None
  | item :: rest =>
      match product_of db item with
      | None => Raise AttributeError
      | Some product =>
          if CartItem.quantity item >? Product.stock product
          then Ok (Some item)
          else first_short db rest
      end
  end.

(** One turn of the loop that moves the cart into the order: snapshot
    the item, take its quantity off the product's stock, and delete the
    cart row when the mode is ['COD']. *)
Definition place_item (payment_mode : string) (order_id : Z) (item : CartItem.t) (db : DB)
  : result DB :=
  match product_of db item with
  | None => Raise AttributeError
  | Some product =>
      let order_item :=
        OrderItem.mk (next_rowid (map OrderItem.id (order_items db))) order_id
                     (CartItem.product_id item) (CartItem.quantity item)
                     (Product.price product) in
      let db1 := with_order_items (fun rows => (rows ++ [order_item])%list) db in
      let db2 :=
        with_products
          (update_where Product.id (Product.id product)
             (set_stock (Product.stock product - CartItem.quantity item))) db1 in
      Ok (if String.eqb payment_mode "COD"
          then with_cart_items (delete_where CartItem.id (CartItem.id item)) db2
          else db2)
  end.

Fixpoint place_items (payment_mode : string) (order_id : Z) (cart : list CartItem.t) (db : DB)
  : result DB :=
  match cart with
  | [] => Ok db
  | item :: rest =>
      match place_item payment_mode order_id item db with
      | Raise e => Raise e
      | Ok db' => place_items payment_mode order_id rest db'
      end
  end.

(** [payment_mode in ['UPI', 'Debit Card']] *)
Definition is_online (payment_mode : string) : bool :=
  String.eqb payment_mode "UPI" || String.eqb payment_mode "Debit Card".

(** ** Handlers that commit as they go *)

(** Handler code that queries and commits as it goes, and may raise
    part-way: the session is threaded through, an exception stops the
    rest and keeps what was committed before it. *)
Definition M (A : Type) : Type := Session -> result A * Session.

Definition mbind {A B : Type} (m : M A) (k : A -> M B) : M B :=
  fun s =>
    match m s with
    | (Ok a, s') => k a s'
    | (Raise e, s') => (Raise e, s')
    end.

Definition lift {A : Type} (r : result A) : M A := fun s => (r, s).

Definition query {A : Type} (q : DB -> result A) : M A := fun s => (q (pending s), s).

Definition execute (f : DB -> DB) : M unit := fun s => (Ok tt, change f s).

Definition session_commit : M unit := fun s => (Ok tt, commit s).

Definition pass : M unit := fun s => (Ok tt, s).

Declare Scope session_scope.
Delimit Scope session_scope with session.
Notation "x <- m ;; k" := (mbind m (fun x => k))
  (at level 100, m at next level, right associativity) : session_scope.
Notation "m ;; k" := (mbind m (fun _ => k))
  (at level 100, right associativity) : session_scope.

Section App.

(** The built-in [sum] on a non-empty list of floats. (How it rounds
    depends on the interpreter: plain left-to-right addition before
    CPython 3.12, compensated summation from then on.) *)
Variable float_sum : list float -> float.

(** [hmac.new(key, msg, hashlib.sha256).hexdigest()] on the UTF-8
    encodings of its arguments. *)
Variable hmac_sha256_hexdigest : string -> string -> string.

(** [json.loads]; [None] is its [JSONDecodeError]. *)
Variable json_loads : string -> option pyval.

(** SQLite compares a bound value of another storage class with a column
    after converting it to the column's affinity: the integer a text or
    real value converts to, if any, and the text a number converts to. *)
Variable numeric_affinity : pyval -> option Z.
Variable text_affinity : pyval -> string.

(** ** Checkout *)

(** [checkout()].
    - [session_user] is [session.get('user_id')];
    - [utcnow] is the clock value the new order's [order_date] defaults to;
    - [gateway] is what the [try] block around [client.order.create] gets:
      the id of the Razorpay order, or the exception raised there. *)
Definition checkout (env : Env) (session_user : option Z) (m : method)
  (gateway : result string) (utcnow : Z) (db : DB) : response * Session :=
  let s := begin db in
  match session_user with
  | None => (Redirect "login", s)
  | Some user_id =>
      let user := User_get db user_id in
      let cart := cart_of db user_id in
      match cart with
      | [] => (Redirect "index", s)
      | _ :: _ =>
          match cart_amounts db cart with
          | Raise _ => (Abort 500, s)
          | Ok amounts =>
              let total_amount := float_sum amounts in
              match int_of_float (PrimFloat.mul total_amount (float_of_int 100)) with
              | Raise _ => (Abort 500, s)
              | Ok razorpay_amount =>
                  match m with
                  | GET => (Render "checkout.html", s)
                  | POST form =>
                      match user with
                      | None => (Abort 500, s)
                      | Some _ =>
                          let s1 :=
                            commit (change (with_users
                              (update_where User.id user_id
                                 (set_profile (CheckoutForm.delivery_address form)
                                              (CheckoutForm.contact_number form)))) s) in
                          match first_short (pending s1) cart with
                          | Raise _ => (Abort 500, s1)
                          | Ok (Some _) => (Redirect "view_cart", s1)
                          | Ok None =>
                              let new_order :=
                                Order.mk (next_rowid (map Order.id (orders (pending s1))))
                                         user_id utcnow total_amount "Pending"
                                         (CheckoutForm.delivery_address form)
                                         (CheckoutForm.contact_number form)
                                         (CheckoutForm.payment_mode form) None in
                              let s2 :=
                                change (with_orders (fun rows => (rows ++ [new_order])%list)) s1 in
                              match place_items (CheckoutForm.payment_mode form)
                                                (Order.id new_order) cart (pending s2) with
                              | Raise _ => (Abort 500, s2)
                              | Ok placed =>
                                  let s3 := change (fun _ => placed) s2 in
                                  if is_online (CheckoutForm.payment_mode form) then
                                    if razorpay env && configured (RAZORPAY_KEY_ID env)
                                       && configured (RAZORPAY_KEY_SECRET env)
                                    then
                                      match gateway with
                                      | Ok razorpay_order_id =>
                                          (Render "checkout_payment.html",
                                           commit (change (with_orders
                                             (update_where Order.id (Order.id new_order)
                                                (fun o => set_status "Payment Initiated"
                                                   (set_transaction_id razorpay_order_id o)))) s3))
                                      | Raise _ => (Redirect "checkout", rollback s3)
                                      end
                                    else (Redirect "checkout", rollback s3)
                                  else (Redirect "order_confirmation", commit s3)
                              end
                          end
                      end
                  end
              end
          end
      end
  end.

(** ** The Razorpay webhook *)

(** The integers SQLite stores: a Python [int] outside this range can
    not be bound ([OverflowError]). *)
Definition sqlite_integer (n : Z) : bool := (- 2 ^ 63 <=? n) && (n <? 2 ^ 63).

(** [column == v] in a [filter_by] on an integer, non-null column: the
    test each row's value goes through. [None] renders as [IS NULL],
    which no row passes; a list or a dict cannot be bound. *)
Definition matches_integer (v : pyval) : result (Z -> bool) :=
  match v with
  | PInt n => if sqlite_integer n then Ok (fun col => col =? n) else Raise OverflowError
  | PBool b => Ok (fun col => col =? (if b then 1 else 0))
  | PNone => Ok (fun _ => false)
  | PFloat _ | PStr _ =>
      Ok (fun col => match numeric_affinity v with Some n => col =? n | None => false end)
  | PList _ | PDict _ => Raise InterfaceError
  end.

(** The same on a nullable text column. An integer is bound before the
    column is looked at, so one outside 64 bits fails here as well. *)
Definition matches_text (v : pyval) : result (option string -> bool) :=
  match v with
  | PStr s => Ok (fun col => match col with Some c => String.eqb c s | None => false end)
  | PNone => Ok (fun col => match col with Some _ => false | None => true end)
  | PInt n =>
      if sqlite_integer n
      then Ok (fun col =>
                 match col with Some c => String.eqb c (text_affinity v) | None => false end)
      else Raise OverflowError
  | PBool _ | PFloat _ =>
      Ok (fun col =>
            match col with Some c => String.eqb c (text_affinity v) | None => false end)
  | PList _ | PDict _ => Raise InterfaceError
  end.

(** [Order.query.filter_by(id=internal_order_id,
    transaction_id=razorpay_order_id).first()] *)
Definition order_for (internal_order_id razorpay_order_id : pyval) (db : DB)
  : result (option Order.t) :=
  (by_id <- matches_integer internal_order_id ;;
   by_transaction <- matches_text razorpay_order_id ;;
   Ok (find (fun o => by_id (Order.id o) && by_transaction (Order.transaction_id o))
            (orders db)))%py.

(** [CartItem.query.filter_by(user_id=user_id).delete()]: the cart table
    without the rows of that user. *)
Definition cart_without (user_id : pyval) (db : DB) : result DB :=
  (by_user <- matches_integer user_id ;;
   Ok (with_cart_items (filter (fun c => negb (by_user (CartItem.user_id c)))) db))%py.

(** [event['payload']['payment']['entity']] *)
Definition entity (event : pyval) : result pyval :=
  (payload <- getitem event "payload" ;;
   payment <- getitem payload "payment" ;;
   getitem payment "entity")%py.

(** [event['payload']['payment']['entity'][key]] *)
Definition entity_field (event : pyval) (key : string) : result pyval :=
  (e <- entity event ;; getitem e key)%py.

(** [event['payload']['payment']['entity']['notes'].get(key)] *)
Definition note (event : pyval) (key : string) : result pyval :=
  (notes <- entity_field event "notes" ;; dict_get notes key)%py.

(** The [payment.captured] branch. *)
Definition on_payment_captured (event : pyval) : M unit :=
  (payment_id <- lift (entity_field event "id") ;;
   razorpay_order_id <- lift (entity_field event "order_id") ;;
   internal_order_id <- lift (note event "internal_order_id") ;;
   user_id_from_notes <- lift (note event "user_id") ;;
   if truthy internal_order_id && truthy user_id_from_notes then
     order <- query (order_for internal_order_id razorpay_order_id) ;;
     match order with
     | Some order =>
         if String.eqb (Order.status order) "Payment Initiated" then
           execute (with_orders
                      (update_where Order.id (Order.id order) (set_status "Confirmed"))) ;;
           session_commit ;;
           remaining <- query (cart_without user_id_from_notes) ;;
           execute (fun _ => remaining) ;;
           session_commit
         else pass
     | None => pass
     end
   else pass)%session.

(** The [payment.failed] branch. *)
Definition on_payment_failed (event : pyval) : M unit :=
  (payment_id <- lift (entity_field event "id") ;;
   razorpay_order_id <- lift (entity_field event "order_id") ;;
   internal_order_id <- lift (note event "internal_order_id") ;;
   if truthy internal_order_id then
     order <- query (order_for internal_order_id razorpay_order_id) ;;
     match order with
     | Some order =>
         if String.eqb (Order.status order) "Payment Initiated" then
           execute (with_orders
                      (update_where Order.id (Order.id order) (set_status "Payment Failed"))) ;;
           session_commit
         else pass
     | None => pass
     end
   else pass)%session.

(** The dispatch on [event['event']]. *)
Definition dispatch (event : pyval) : M unit :=
  (event_type <- lift (getitem event "event") ;;
   if eq_str event_type "payment.captured" then on_payment_captured event
   else if eq_str event_type "payment.failed" then on_payment_failed event
   else pass)%session.

(** [not razorpay_signature] *)
Definition no_signature (razorpay_signature : option string) : bool :=
  match razorpay_signature with
  | Some sig => String.eqb sig ""
  | None => true
  end.

(** [razorpay_webhook()]; [payload] is [request.get_data(as_text=True)]
    and [razorpay_signature] is
    [request.headers.get('x-razorpay-signature')]. *)
Definition razorpay_webhook (env : Env) (payload : string)
  (razorpay_signature : option string) (db : DB) : response * Session :=
  let s := begin db in
  match razorpay_signature with
  | None => (Reply "Unauthorized" 401, s)
  | Some claimed =>
      if String.eqb claimed "" then (Reply "Unauthorized" 401, s)
      else
        match RAZORPAY_KEY_SECRET env with
        | None => (Reply "Internal Server Error" 500, s)
        | Some key_secret =>
            if String.eqb key_secret "" then (Reply "Internal Server Error" 500, s)
            else
              let generated_signature := hmac_sha256_hexdigest key_secret payload in
              if String.eqb generated_signature claimed then
                match json_loads payload with
                | None => (Reply "Invalid JSON" 400, s)
                | Some event =>
                    match dispatch event s with
                    | (Ok _, s') => (Reply "OK" 200, s')
                    | (Raise _, s') => (Reply "Internal Server Error" 500, s')
                    end
                end
              else (Reply "Signature mismatch" 400, s)
        end
  end.

(** A delivery that passes the signature check and parses to [event]. *)
Definition verified (env : Env) (payload : string) (razorpay_signature : option string)
  (event : pyval) : Prop :=
  exists key_secret claimed,
    RAZORPAY_KEY_SECRET env = Some key_secret /\ key_secret <> "" /\
    razorpay_signature = Some claimed /\ claimed <> "" /\
    hmac_sha256_hexdigest key_secret payload = claimed /\
    json_loads payload = Some event.

(** A delivery whose signature header is present and differs from the
    one recomputed with the configured secret. *)
Definition mismatched (env : Env) (payload : string) (razorpay_signature : option string)
  : Prop :=
  exists key_secret claimed,
    RAZORPAY_KEY_SECRET env = Some key_secret /\ key_secret <> "" /\
    razorpay_signature = Some claimed /\ claimed <> "" /\
    hmac_sha256_hexdigest key_secret payload <> claimed.

(** An event of type [event_type] whose entity carries a payment id and
    Razorpay's order id. *)
Definition event_of_type (event : pyval) (event_type : string) (razorpay_order_id : pyval)
  : Prop :=
  getitem event "event" = Ok (PStr event_type) /\
  (exists payment_id, entity_field event "id" = Ok payment_id) /\
  entity_field event "order_id" = Ok razorpay_order_id.

(** The notes of the event do not give [key] a usable value: the key is
    not there ([.get] answers [None]) or its value is falsy. *)
Definition missing_note (event : pyval) (key : string) : Prop :=
  exists v, note event key = Ok v /\ truthy v = false.

(** ** Requests and runs *)

(** One request to the application. *)
Inductive request : Type :=
| AddToCart (session_user : option Z) (product_id : Z)
| UpdateCart (session_user : option Z) (item_id : Z) (new_quantity : option Z)
| RemoveFromCart (session_user : option Z) (item_id : Z)
| Checkout (session_user : option Z) (m : method) (gateway : result string) (utcnow : Z)
| Webhook (payload : string) (razorpay_signature : option string).

Definition handle (env : Env) (r : request) (db : DB) : response * Session :=
  match r with
  | AddToCart u p => add_to_cart u p db
  | UpdateCart u i q => update_cart u i q db
  | RemoveFromCart u i => remove_from_cart u i db
  | Checkout u m g t => checkout env u m g t db
  | Webhook p sig => razorpay_webhook env p sig db
  end.

(** The store after serving the requests one after the other. *)
Definition serve (env : Env) (rs : list request) (db : DB) : DB :=
  fold_left (fun db r => store_after (handle env r db)) rs db.

End App.

(** ** Properties the specification names *)

(** The replies with which the webhook refuses a delivery on its
    signature: 401 for a missing one, 400 for a wrong one. *)
Definition Unauthorized (r : response) : Prop :=
  r = Reply "Unauthorized" 401 \/ r = Reply "Signature mismatch" 400.

(** Nothing was committed and nothing is left pending. *)
Definition untouched (db : DB) (s : Session) : Prop :=
  durable s = db /\ pending s = db /\ commits s = [].


(** The cart item asks for no more than its product has. *)
Definition in_stock (db : DB) (item : CartItem.t) : Prop :=
  exists product,
    product_of db item = Some product /\ CartItem.quantity item <= Product.stock product.

(** Every cart item's quantity lies in [[1, product.stock]]. *)
Definition cart_bounded (db : DB) : Prop :=
  forall item, In item (cart_items db) ->
    exists product,
      product_of db item = Some product /\
      1 <= CartItem.quantity item <= Product.stock product.

(** [cart_item.id] is a primary key. *)
Definition cart_keyed (db : DB) : Prop := NoDup (map CartItem.id (cart_items db)).

(** The reserved stock of every item of order [order_id] is back: each
    referenced product has that item's quantity more than before. *)
Definition stock_restored (order_id : Z) (before after : DB) : Prop :=
  forall item, In item (order_items before) -> OrderItem.order_id item = order_id ->
    forall product, Product_get before (OrderItem.product_id item) = Some product ->
      exists product',
        Product_get after (OrderItem.product_id item) = Some product' /\
        Product.stock product' = Product.stock product + OrderItem.quantity item.

(** Order [o] has an item for the product of cart item [c]. *)
Definition purchased (db : DB) (o : Order.t) (c : CartItem.t) : Prop :=
  exists item, In item (order_items db) /\
    OrderItem.order_id item = Order.id o /\
    OrderItem.product_id item = CartItem.product_id c.

(** The cart rows gone are exactly the owner's rows for purchased
    products; every other row is still there. *)
Definition purchase_cleared (o : Order.t) (before after : DB) : Prop :=
  forall c, In c (cart_items before) ->
    (In c (cart_items after) <->
     ~ (CartItem.user_id c = Order.user_id o /\ purchased before o c)).

(** What a first delivery commits: the order confirmed, then the cart of
    the user named in the notes removed. *)
Definition confirmed (o : Order.t) (db : DB) : DB :=
  with_orders (update_where Order.id (Order.id o) (set_status "Confirmed")) db.

Definition cleared (by_user : Z -> bool) (db : DB) : DB :=
  with_cart_items (filter (fun c => negb (by_user (CartItem.user_id c)))) db.

(** The store once the checkout form's address and contact number are
    saved on the user's row. *)
Definition with_profile (user_id : Z) (form : CheckoutForm.t) (db : DB) : DB :=
  with_users
    (update_where User.id user_id
       (set_profile (CheckoutForm.delivery_address form) (CheckoutForm.contact_number form)))
    db.

(** The order row a checkout inserts. *)
Definition new_order_row (user_id utcnow : Z) (total_amount : float) (form : CheckoutForm.t)
  (db : DB) : Order.t :=
  Order.mk (next_rowid (map Order.id (orders db))) user_id utcnow total_amount "Pending"
           (CheckoutForm.delivery_address form) (CheckoutForm.contact_number form)
           (CheckoutForm.payment_mode form) None.

(** [db'] has the products of [db] and, of its cart rows, a selection. *)
Definition narrows (db db' : DB) : Prop :=
  products db' = products db /\
  exists keep, cart_items db' = filter keep (cart_items db).


(** The gateway can not be reached: the SDK or a key is missing, or the
    call raised. *)
Definition gateway_fails (env : Env) (gateway : result string) : Prop :=
  razorpay env && configured (RAZORPAY_KEY_ID env) && configured (RAZORPAY_KEY_SECRET env) = false
  \/ exists e, gateway = Raise e.

(** The three tables an order creation writes to are as in [db]. *)
Definition order_state_as (db db' : DB) : Prop :=
  orders db' = orders db /\ order_items db' = order_items db /\ products db' = products db.

(** Requests other than a checkout. *)
Definition not_checkout (r : request) : Prop :=
  match r with
  | Checkout _ _ _ _ => False
  | _ => True
  end.

(** ** Accounts *)

(** The form of [register]. The record holds a form that carries the
    three keys read with [request.form[...]]; the two optional keys are
    read with [.get]. *)
Module RegisterForm.
Record t : Type := mk {
  username : string;
  email : string;
  password : string;
  address : option string;         (* request.form.get('address', '') *)
  contact_number : option string   (* request.form.get('contact_number', '') *)
}.
End RegisterForm.

Inductive register_method : Type :=
| RegisterPage
| RegisterSubmit (form : RegisterForm.t).

(** [User.query.filter_by(username=username).first()] *)
Definition user_named (db : DB) (username : string) : option User.t :=
  find (fun u => String.eqb (User.username u) username) (users db).

(** [User.query.filter_by(email=email).first()] *)
Definition user_with_email (db : DB) (email : string) : option User.t :=
  find (fun u => String.eqb (User.email u) email) (users db).

Definition or_empty (v : option string) : string :=
  match v with
  | Some s => s
  | None => ""
  end.

(** [register()]; [password_hash] is what [generate_password_hash]
    returned for the submitted password (it draws a fresh salt). *)
Definition register (session_user : option Z) (m : register_method) (password_hash : string)
  (db : DB) : response * Session :=
  let s := begin db in
  match session_user with
  | Some _ => (Redirect "index", s)
  | None =>
      match m with
      | RegisterPage => (Render "register.html", s)
      | RegisterSubmit form =>
          let username := RegisterForm.username form in
          let email := RegisterForm.email form in
          if String.eqb username "" || String.eqb email ""
             || String.eqb (RegisterForm.password form) ""
          then (Redirect "register", s)
          else
            match user_named db username with
            | Some _ => (Redirect "register", s)
            | None =>
                match user_with_email db email with
                | Some _ => (Redirect "register", s)
                | None =>
                    let new_user :=
                      User.mk (next_rowid (map User.id (users db))) username email
                              password_hash
                              (Some (or_empty (RegisterForm.address form)))
                              (Some (or_empty (RegisterForm.contact_number form)))
                              false in
                    (Redirect "login",
                     commit (change (with_users (fun rows => (rows ++ [new_user])%list)) s))
                end
            end
      end
  end.

Inductive login_method : Type :=
| LoginPage
| LoginSubmit (username password : string).

(** [login()], with [check_password_hash] as a parameter; the second
    component is [session.get('user_id')] after the request. The handler
    writes nothing to the store. *)
Definition login (check_password_hash : string -> string -> bool)
  (session_user : option Z) (m : login_method) (db : DB) : response * option Z :=
  match session_user with
  | Some _ => (Redirect "index", session_user)
  | None =>
      match m with
      | LoginPage => (Render "login.html", session_user)
      | LoginSubmit username password =>
          match user_named db username with
          | Some user =>
              if check_password_hash (User.password_hash user) password
              then (Redirect "index", Some (User.id user))
              else (Redirect "login", session_user)
          | None => (Redirect "login", session_user)
          end
      end
  end.

(** User ids, usernames and e-mail addresses are keys of the user
    table. *)
Definition users_unique (db : DB) : Prop :=
  NoDup (map User.id (users db)) /\
  NoDup (map User.username (users db)) /\
  NoDup (map User.email (users db)).

(** ** The catalogue *)

(** [login_required] followed by [admin_required]: the redirect that
    turns the request away, or [None] when the session belongs to an
    administrator. *)
Definition admin_required (session_user : option Z) (db : DB) : option response :=
  match session_user with
  | None => Some (Redirect "login")
  | Some user_id =>
      if user_id =? 0 then Some (Redirect "login")
      else
        match User_get db user_id with
        | Some user => if User.is_admin user then None else Some (Redirect "index")
        | None => Some (Redirect "index")
        end
  end.

Module ProductForm.
Record t : Type := mk {
  name : string;
  description : string;
  price : option float;       (* float(request.form['price']); None: ValueError *)
  stock : option Z;           (* int(request.form['stock']); None: ValueError *)
  image_url : option string   (* request.form.get('image_url') *)
}.
End ProductForm.

Inductive product_method : Type :=
| ProductPage
| ProductSubmit (form : ProductForm.t).

(** What the product table accepts at commit: SQLite binds a NaN as
    NULL, which the non-null [price] column refuses, and holds integers
    of 64 bits. *)
Definition product_storable (price : float) (stock : Z) : bool :=
  negb (PrimFloat.is_nan price) && sqlite_integer stock.

(** [not image_url] *)
Definition no_image (image_url : option string) : bool :=
  match image_url with
  | Some url => String.eqb url ""
  | None => true
  end.

(** [admin_add_product()] *)
Definition admin_add_product (session_user : option Z) (m : product_method) (db : DB)
  : response * Session :=
  let s := begin db in
  match admin_required session_user db with
  | Some denied => (denied, s)
  | None =>
      match m with
      | ProductPage => (Render "admin/add_product.html", s)
      | ProductSubmit form =>
          match ProductForm.price form, ProductForm.stock form with
          | Some price, Some stock =>
              let image_url :=
                if no_image (ProductForm.image_url form)
                then Some "/static/images/product_placeholder.png"
                else ProductForm.image_url form in
              let new_product :=
                Product.mk (next_rowid (map Product.id (products db)))
                           (ProductForm.name form) (Some (ProductForm.description form))
                           price stock image_url in
              if product_storable price stock
              then (Redirect "admin_products",
                    commit (change (with_products
                                      (fun rows => (rows ++ [new_product])%list)) s))
              else (Abort 500, s)
          | _, _ => (Abort 500, s)
          end
      end
  end.

(** The assignments of [admin_edit_product] on the loaded row. *)
Definition edited (form : ProductForm.t) (price : float) (stock : Z) (p : Product.t)
  : Product.t :=
  Product.mk (Product.id p) (ProductForm.name form) (Some (ProductForm.description form))
             price stock
             (if no_image (ProductForm.image_url form)
              then Product.image_url p else ProductForm.image_url form).

(** [admin_edit_product(product_id)] *)
Definition admin_edit_product (session_user : option Z) (product_id : Z)
  (m : product_method) (db : DB) : response * Session :=
  let s := begin db in
  match admin_required session_user db with
  | Some denied => (denied, s)
  | None =>
      match Product_get db product_id with
      | None => (Abort 404, s)
      | Some product =>
          match m with
          | ProductPage => (Render "admin/edit_product.html", s)
          | ProductSubmit form =>
              match ProductForm.price form, ProductForm.stock form with
              | Some price, Some stock =>
                  if product_storable price stock
                  then (Redirect "admin_products",
                        commit (change (with_products
                          (update_where Product.id (Product.id product)
                             (edited form price stock))) s))
                  else (Abort 500, s)
              | _, _ => (Abort 500, s)
              end
          end
      end
  end.

(** [admin_delete_product(product_id)]; the route takes POST only. Rows
    of other tables that point to the product are left as they are: the
    [product] relationships have no cascade, and the foreign keys are
    not enforced by the SQLite connection as the application opens it. *)
Definition admin_delete_product (session_user : option Z) (product_id : Z) (db : DB)
  : response * Session :=
  let s := begin db in
  match admin_required session_user db with
  | Some denied => (denied, s)
  | None =>
      match Product_get db product_id with
      | None => (Abort 404, s)
      | Some product =>
          (Redirect "admin_products",
           commit (change (with_products (delete_where Product.id (Product.id product))) s))
      end
  end.

(** [session.get('user_id')] is truthy. *)
Definition signed_in (session_user : option Z) : bool :=
  match session_user with
  | Some user_id => negb (user_id =? 0)
  | None => false
  end.

(** The session belongs to an administrator. *)
Definition admin_session (session_user : option Z) (db : DB) : Prop :=
  exists user_id user,
    session_user = Some user_id /\ user_id <> 0 /\
    User_get db user_id = Some user /\ User.is_admin user = true.

(** ** The profile page *)

Module ProfileForm.
Record t : Type := mk {
  username : string;
  email : string;
  address : option string;         (* request.form.get('address', '') *)
  contact_number : option string   (* request.form.get('contact_number', '') *)
}.
End ProfileForm.

Inductive profile_method : Type :=
| ProfilePage
| ProfileSubmit (form : ProfileForm.t).

(** The assignments of [profile] on the loaded row. *)
Definition with_account (form : ProfileForm.t) (u : User.t) : User.t :=
  User.mk (User.id u) (ProfileForm.username form) (ProfileForm.email form)
          (User.password_hash u)
          (Some (or_empty (ProfileForm.address form)))
          (Some (or_empty (ProfileForm.contact_number form)))
          (User.is_admin u).

(** The [unique=True] columns at commit: a row other than the user's
    own already holds the username or the e-mail address. *)
Definition taken_by_another (db : DB) (user_id : Z) (form : ProfileForm.t) : bool :=
  existsb (fun u => negb (User.id u =? user_id)
                    && (String.eqb (User.username u) (ProfileForm.username form)
                        || String.eqb (User.email u) (ProfileForm.email form)))
          (users db).

(** [profile()]. A session whose user has no row fails on the first
    assignment; a username or address held by another row fails at
    commit. *)
Definition profile (session_user : option Z) (m : profile_method) (db : DB)
  : response * Session :=
  let s := begin db in
  match session_user with
  | None => (Redirect "login", s)
  | Some user_id =>
      match m with
      | ProfilePage => (Render "profile.html", s)
      | ProfileSubmit form =>
          match User_get db user_id with
          | None => (Abort 500, s)
          | Some user =>
              if taken_by_another db (User.id user) form
              then (Abort 500, s)
              else (Redirect "profile",
                    commit (change (with_users
                                      (update_where User.id (User.id user)
                                         (with_account form))) s))
          end
      end
  end.

(** ** The site *)

(** One request to any of the handlers that write the store. [login],
    [logout] and the pages that only read are not among them. *)
Inductive visit : Type :=
| Shop (r : request)
| Register (session_user : option Z) (m : register_method) (password_hash : string)
| Profile (session_user : option Z) (m : profile_method)
| AddProduct (session_user : option Z) (m : product_method)
| EditProduct (session_user : option Z) (product_id : Z) (m : product_method)
| DeleteProduct (session_user : option Z) (product_id : Z).

Section Site.

Variable float_sum : list float -> float.
Variable hmac_sha256_hexdigest : string -> string -> string.
Variable json_loads : string -> option pyval.
Variable numeric_affinity : pyval -> option Z.
Variable text_affinity : pyval -> string.

Definition receive (env : Env) (v : visit) (db : DB) : response * Session :=
  match v with
  | Shop r =>
      handle float_sum hmac_sha256_hexdigest json_loads numeric_affinity text_affinity
             env r db
  | Register u m h => register u m h db
  | Profile u m => profile u m db
  | AddProduct u m => admin_add_product u m db
  | EditProduct u p m => admin_edit_product u p m db
  | DeleteProduct u p => admin_delete_product u p db
  end.

(** The store after the visits, one after the other. *)
Definition browse (env : Env) (vs : list visit) (db : DB) : DB :=
  fold_left (fun db v => store_after (receive env v db)) vs db.

End Site.

(** ** Further properties of the handlers *)

(** How many units of a product a user's cart row asks for; none
    without a row. *)
Definition quantity_in_cart (db : DB) (user_id product_id : Z) : Z :=
  match cart_item_for db user_id product_id with
  | Some cart_item => CartItem.quantity cart_item
  | None => 0
  end.

(** A request to a [login_required] route that comes without a
    logged-in user. *)
Definition logged_out (r : request) : Prop :=
  match r with
  | AddToCart None _ | UpdateCart None _ _ | RemoveFromCart None _
  | Checkout None _ _ _ => True
  | _ => False
  end.

(** A cart request (add, update, remove) made by [user_id]. *)
Definition cart_request_by (user_id : Z) (r : request) : Prop :=
  match r with
  | AddToCart (Some u) _ | UpdateCart (Some u) _ _ | RemoveFromCart (Some u) _ =>
      u = user_id
  | _ => False
  end.

(** The cart rows of everybody but [user_id]. *)
Definition carts_of_others (user_id : Z) (db : DB) : list CartItem.t :=
  filter (fun c => negb (CartItem.user_id c =? user_id)) (cart_items db).

(** Users, products, orders and order items are as in [db]. *)
Definition only_cart_differs (db db' : DB) : Prop :=
  users db' = users db /\ products db' = products db /\
  orders db' = orders db /\ order_items db' = order_items db.

(** A user has at most one cart row per product. *)
Definition cart_pairs_unique (db : DB) : Prop :=
  NoDup (map (fun c => (CartItem.user_id c, CartItem.product_id c)) (cart_items db)).

(** No product has a negative stock. *)
Definition stock_nonneg (db : DB) : Prop :=
  forall product, In product (products db) -> 0 <= Product.stock product.

(** The order row of a checkout once the gateway has answered. *)
Definition initiated (razorpay_order_id : string) (o : Order.t) : Order.t :=
  set_status "Payment Initiated" (set_transaction_id razorpay_order_id o).



(** A delivery whose signature header equals the digest of its payload
    under the configured secret. *)
Definition signed (hmac : string -> string -> string) (env : Env) (payload : string)
  (razorpay_signature : option string) : Prop :=
  exists key_secret claimed,
    RAZORPAY_KEY_SECRET env = Some key_secret /\ key_secret <> "" /\
    razorpay_signature = Some claimed /\ claimed <> "" /\
    hmac key_secret payload = claimed.


(** The order table of [db'] is that of [db], or that of [db] with the
    rows of one order that was in [Payment Initiated] moved to
    [Confirmed] or to [Payment Failed]. *)
Definition status_moved (db db' : DB) : Prop :=
  orders db' = orders db \/
  exists o st,
    In o (orders db) /\ Order.status o = "Payment Initiated" /\
    (st = "Confirmed" \/ st = "Payment Failed") /\
    orders db' = update_where Order.id (Order.id o) (set_status st) (orders db).

(** What identifies an account and what it may do: id, password
    hash and administrator flag of every user, in table order. *)
Definition credentials (db : DB) : list (Z * string * bool) :=
  map (fun u => (User.id u, User.password_hash u, User.is_admin u)) (users db).

(** ** Fixtures *)

(** Stand-ins for the library functions the webhook is parameterised
    by, used in the worked cases. The sum is plain left-to-right
    addition from zero. The handler only compares the digest
    with the header, so any function serves as the HMAC; the parser is the
    table of the payloads used here; no bound value needs a conversion. *)
Definition plain_sum (amounts : list float) : float :=
  fold_left PrimFloat.add amounts PrimFloat.zero.

Definition stub_hmac (key msg : string) : string := (key ++ ":" ++ msg)%string.

Definition stub_numeric (v : pyval) : option Z := None.

Definition stub_text (v : pyval) : string := "".

(** The envelope Razorpay posts: the event type and the payment entity
    with its id, Razorpay's order id and the notes set at checkout. *)
Definition envelope (event_type : string) (notes : list (string * pyval)) : pyval :=
  PDict [("event", PStr event_type);
         ("payload",
          PDict [("payment",
                  PDict [("entity",
                          PDict [("id", PStr "pay_1");
                                 ("order_id", PStr "order_R1");
                                 ("notes", PDict notes)])])])].

Definition captured_event : pyval :=
  envelope "payment.captured" [("internal_order_id", PInt 1); ("user_id", PInt 1)].

Definition failed_event : pyval :=
  envelope "payment.failed" [("internal_order_id", PInt 1); ("user_id", PInt 1)].

Definition failed_event_without_user : pyval :=
  envelope "payment.failed" [("internal_order_id", PInt 1)].

Definition captured_event_without_user : pyval :=
  envelope "payment.captured" [("internal_order_id", PInt 1)].

Definition stub_loads (payload : string) : option pyval :=
  if String.eqb payload "captured" then Some captured_event
  else if String.eqb payload "failed" then Some failed_event
  else if String.eqb payload "failed, no user" then Some failed_event_without_user
  else if String.eqb payload "captured, no user" then Some captured_event_without_user
  else None.

Definition stub_webhook :=
  razorpay_webhook stub_hmac stub_loads stub_numeric stub_text.

Definition stub_checkout := checkout plain_sum.

Definition stub_serve := serve plain_sum stub_hmac stub_loads stub_numeric stub_text.

(** An installation with the SDK and both keys. *)
Definition live : Env := mkEnv true (Some "rzp_test_key") (Some "whsec").

Definition ann : User.t := User.mk 1 "ann" "ann@example.com" "pbkdf2" None None false.

Definition mouse (stock : Z) : Product.t :=
  Product.mk 1 "Wireless Mouse" None (float_of_int 10) stock None.

Definition keyboard (stock : Z) : Product.t :=
  Product.mk 2 "Mechanical Keyboard" None (float_of_int 80) stock None.

(** Ann's order 1 for one mouse, as an online checkout leaves it. *)
Definition order_1 (status : string) : Order.t :=
  Order.mk 1 1 0 (float_of_int 10) status "1 Main St" "555" "UPI" (Some "order_R1").

(** The store between Ann's online checkout and the gateway's
    notification: four mice are left after her reservation, her cart
    still holds the mouse, and she has since added a keyboard. *)
Definition awaiting_payment : DB :=
  mkDB [ann]
       [mouse 4; keyboard 3]
       [CartItem.mk 1 1 1 1; CartItem.mk 2 1 2 1]
       [order_1 "Payment Initiated"]
       [OrderItem.mk 1 1 1 1 (float_of_int 10)].

(** A store with one mouse in stock and nothing else going on. *)
Definition last_mouse : DB := mkDB [ann] [mouse 1] [] [] [].

Definition upi_form : CheckoutForm.t := CheckoutForm.mk "1 Main St" "555" "UPI".

Definition cod_form : CheckoutForm.t := CheckoutForm.mk "1 Main St" "555" "COD".

(** Ann with one mouse in her cart, five in stock. *)
Definition one_in_cart : DB := mkDB [ann] [mouse 5] [CartItem.mk 1 1 1 1] [] [].

(** Ann with three mice in her cart, two in stock. *)
Definition short_of_stock : DB := mkDB [ann] [mouse 2] [CartItem.mk 1 1 1 3] [] [].

Definition stub_handle := handle plain_sum stub_hmac stub_loads stub_numeric stub_text.

Definition bob : User.t := User.mk 2 "bob" "bob@example.com" "pbkdf2" None None false.

Definition root : User.t := User.mk 3 "root" "root@example.com" "pbkdf2" None None true.

(** Ann and Bob each with mice in the cart. *)
Definition two_carts : DB :=
  mkDB [ann; bob] [mouse 5] [CartItem.mk 1 1 1 1; CartItem.mk 2 2 1 2] [] [].

(** More payloads: an event type the handler does not know, an empty
    object, and a captured event for Ann's order whose notes name Bob. *)
Definition stub_loads_more (payload : string) : option pyval :=
  if String.eqb payload "refund" then Some (envelope "refund.created" [])
  else if String.eqb payload "empty" then Some (PDict [])
  else if String.eqb payload "captured, bob"
  then Some (envelope "payment.captured" [("internal_order_id", PInt 1); ("user_id", PInt 2)])
  else stub_loads payload.

Definition stub_webhook_more :=
  razorpay_webhook stub_hmac stub_loads_more stub_numeric stub_text.

(** Ann's order already confirmed. *)
Definition already_confirmed : DB :=
  mkDB [ann] [mouse 4] [] [order_1 "Confirmed"] [OrderItem.mk 1 1 1 1 (float_of_int 10)].

(** Ann's order awaiting payment while Bob has a keyboard in his cart. *)
Definition awaiting_with_bob : DB :=
  mkDB [ann; bob] [mouse 4; keyboard 3]
       [CartItem.mk 1 1 1 1; CartItem.mk 2 2 2 1]
       [order_1 "Payment Initiated"]
       [OrderItem.mk 1 1 1 1 (float_of_int 10)].

(** A shop with an administrator, and a mouse in Ann's cart. *)
Definition with_root : DB :=
  mkDB [ann; root] [mouse 5] [CartItem.mk 1 1 1 1] [] [].

Definition bob_signs_up : RegisterForm.t :=
  RegisterForm.mk "bob" "bob@example.com" "s3cret" None None.

(** A stand-in for [check_password_hash]. *)
Definition stub_check (pwhash password : string) : bool :=
  String.eqb pwhash ("hash of " ++ password)%string.

Definition stub_browse := browse plain_sum stub_hmac stub_loads stub_numeric stub_text.

(** Ann asks for the administrator's username. *)
Definition ann_as_root : ProfileForm.t :=
  ProfileForm.mk "root" "ann@example.com" None None.

(** * Proofs *)

(** ** Lists and rows *)

Lemma find_map_stable {A : Type} (test : A -> bool) (f : A -> A) (rows : list A) :
  (forall r, test (f r) = test r) ->
  find test (map f rows) = option_map f (find test rows).
Proof.
  intros Hstable. induction rows as [|r rows IH]; simpl; [reflexivity|].
  rewrite Hstable. destruct (test r); [reflexivity | exact IH].
Qed.

Lemma eqb_string_false (a b : string) : a <> b -> String.eqb a b = false.
Proof. intros H. apply String.eqb_neq. exact H. Qed.

(** ** Checkout: the loops *)

Lemma product_of_products db db' item :
  products db' = products db -> product_of db' item = product_of db item.
Proof. intros H. unfold product_of, Product_get. rewrite H. reflexivity. Qed.

(** The stock check reads the product table only. *)
Lemma first_short_products db db' cart :
  products db' = products db -> first_short db' cart = first_short db cart.
Proof.
  intros H. induction cart as [|item rest IH]; simpl; [reflexivity|].
  rewrite (product_of_products _ _ _ H), IH. reflexivity.
Qed.

(** Moving the cart into the order writes neither users nor orders. *)
Lemma place_items_frame mode order_id cart : forall db db',
  place_items mode order_id cart db = Ok db' ->
  users db' = users db /\ orders db' = orders db.
Proof.
  induction cart as [|item rest IH]; simpl; intros db db' H.
  - injection H as <-. split; reflexivity.
  - unfold place_item in H. destruct (product_of db item) as [product|]; [|discriminate].
    apply IH in H. destruct H as (Husers & Horders).
    rewrite Husers, Horders. destruct (String.eqb mode "COD"); split; reflexivity.
Qed.

Lemma User_get_id db pk u : User_get db pk = Some u -> User.id u = pk.
Proof.
  unfold User_get. intros H. apply find_some in H. destruct H as (_ & H).
  apply Z.eqb_eq. exact H.
Qed.

(** The profile update rewrites the row of the user and no other. *)
Lemma User_get_with_profile db user_id form u :
  User_get db user_id = Some u ->
  User_get (with_profile user_id form db) user_id
  = Some (set_profile (CheckoutForm.delivery_address form)
                      (CheckoutForm.contact_number form) u).
Proof.
  intros Hget. pose proof (User_get_id _ _ _ Hget) as Hid.
  unfold User_get, with_profile in *. simpl users. unfold update_where.
  rewrite find_map_stable.
  - rewrite Hget. simpl. rewrite Hid, Z.eqb_refl. reflexivity.
  - intros row. destruct (User.id row =? user_id) eqn:Hrow; simpl; rewrite ?Hrow; reflexivity.
Qed.

Lemma Product_get_id db pk p : Product_get db pk = Some p -> Product.id p = pk.
Proof.
  unfold Product_get. intros H. apply find_some in H. destruct H as (_ & H).
  apply Z.eqb_eq. exact H.
Qed.



(** A stock update on one product, seen through a lookup. *)
Lemma Product_get_after_stock db db' pk n q :
  products db' = update_where Product.id pk (set_stock n) (products db) ->
  Product_get db' q
  = option_map (fun p => if Product.id p =? pk then set_stock n p else p) (Product_get db q).
Proof.
  intros H. unfold Product_get. rewrite H. unfold update_where.
  apply find_map_stable. intros row.
  destruct (Product.id row =? pk) eqn:Hrow; reflexivity.
Qed.



Lemma filter_twice {A : Type} (f g : A -> bool) (l : list A) :
  filter g (filter f l) = filter (fun x => f x && g x) l.
Proof.
  induction l as [|x l IH]; simpl; [reflexivity|].
  destruct (f x); simpl; [destruct (g x)|]; rewrite ?IH; reflexivity.
Qed.


(** Under ['COD'] the loop deletes the cart rows it walks; under any
    other mode it leaves the cart table alone. *)
Lemma place_items_cart mode order_id cart : forall db db',
  place_items mode order_id cart db = Ok db' ->
  cart_items db'
  = if String.eqb mode "COD"
    then filter (fun c => negb (existsb (Z.eqb (CartItem.id c)) (map CartItem.id cart)))
                (cart_items db)
    else cart_items db.
Proof.
  induction cart as [|item rest IH]; simpl; intros db db' H.
  - injection H as <-. destruct (String.eqb mode "COD"); [|reflexivity].
    symmetry. apply forallb_filter_id. apply forallb_forall. reflexivity.
  - unfold place_item in H. destruct (product_of db item) as [product|]; [|discriminate].
    apply IH in H. rewrite H. destruct (String.eqb mode "COD"); [|reflexivity].
    simpl cart_items. unfold delete_where. rewrite filter_twice.
    apply filter_ext. intros c. rewrite negb_orb. reflexivity.
Qed.


Section Properties.

Variable float_sum : list float -> float.
Variable hmac_sha256_hexdigest : string -> string -> string.
Variable json_loads : string -> option pyval.
Variable numeric_affinity : pyval -> option Z.
Variable text_affinity : pyval -> string.

Abbreviation check_out := (checkout float_sum).
Abbreviation webhook :=
  (razorpay_webhook hmac_sha256_hexdigest json_loads numeric_affinity text_affinity).
Abbreviation deliver := (dispatch numeric_affinity text_affinity).
Abbreviation find_order := (order_for numeric_affinity text_affinity).
Abbreviation run :=
  (serve float_sum hmac_sha256_hexdigest json_loads numeric_affinity text_affinity).
Abbreviation answer :=
  (handle float_sum hmac_sha256_hexdigest json_loads numeric_affinity text_affinity).
Abbreviation is_verified := (verified hmac_sha256_hexdigest json_loads).
Abbreviation is_mismatched := (mismatched hmac_sha256_hexdigest).

(** ** Checkout: failure paths *)

Ltac split_match :=
  match goal with
  | |- context [match ?x with _ => _ end] => destruct x eqn:?
  end.

(** With [config.py] as it stands no Razorpay key is configured, so the
    gateway is never reached. *)
Lemma repository_config_has_no_gateway razorpay_installed gateway :
  gateway_fails (Config razorpay_installed) gateway.
Proof. left. simpl. apply andb_false_r. Qed.

(** C3. A checkout in an online payment mode whose gateway call fails
    (the SDK or a key is missing, or the call raises) persists nothing of
    the order: the order table, the order-item table, the product table
    with every stock, and the cart table are afterwards exactly as before
    the call, and so they are in every snapshot the request committed. *)
Theorem online_checkout_failure_rolls_back env session_user form gateway utcnow db :
  is_online (CheckoutForm.payment_mode form) = true ->
  gateway_fails env gateway ->
  let r := check_out env session_user (POST form) gateway utcnow db in
  order_state_as db (store_after r) /\
  cart_items (store_after r) = cart_items db /\
  (forall snapshot, In snapshot (commits (snd r)) ->
     order_state_as db snapshot /\ cart_items snapshot = cart_items db).
Proof.
  intros Honline Hfails r. subst r. unfold checkout, store_after, order_state_as.
  cbv zeta. rewrite Honline.
  repeat split_match; simpl;
    try (destruct Hfails as [Hoff | (e & He)]; congruence);
    repeat split; try reflexivity; intros;
    repeat match goal with
           | H : _ \/ _ |- _ => destruct H
           | H : False |- _ => contradiction
           end;
    subst; reflexivity.
Qed.

(** C10 (as the code has it). A checkout POST by a logged-in user
    whose row exists and whose cart is not empty, every cart row's
    product existing and the total in paise being a finite number (the
    handler gets past the lines that precede the POST branch), first saves the submitted
    delivery address and contact number on the user's row and commits
    them; whatever happens next, the stored profile stays that way. In
    particular a checkout that then stops at the stock check redirects to
    the cart with that single commit: no order, no order item, no stock
    change, but the profile updated. *)
Theorem checkout_saves_profile_first env user_id form gateway utcnow db u amounts paise :
  User_get db user_id = Some u ->
  cart_of db user_id <> [] ->
  cart_amounts db (cart_of db user_id) = Ok amounts ->
  int_of_float (PrimFloat.mul (float_sum amounts) (float_of_int 100)) = Ok paise ->
  let r := check_out env (Some user_id) (POST form) gateway utcnow db in
  (exists later, commits (snd r) = with_profile user_id form db :: later) /\
  users (store_after r) = users (with_profile user_id form db) /\
  User_get (store_after r) user_id
    = Some (set_profile (CheckoutForm.delivery_address form)
                        (CheckoutForm.contact_number form) u) /\
  ((exists item, first_short db (cart_of db user_id) = Ok (Some item)) ->
   fst r = Redirect "view_cart" /\
   store_after r = with_profile user_id form db /\
   commits (snd r) = [with_profile user_id form db] /\
   order_state_as db (store_after r) /\
   cart_items (store_after r) = cart_items db).
Proof.
  intros Huser Hcart Hamounts Hpaise r.
  assert (Husers : (exists later, commits (snd r) = with_profile user_id form db :: later) /\
                   users (store_after r) = users (with_profile user_id form db) /\
                   ((exists item, first_short db (cart_of db user_id) = Ok (Some item)) ->
                    fst r = Redirect "view_cart" /\
                    store_after r = with_profile user_id form db /\
                    commits (snd r) = [with_profile user_id form db] /\
                    order_state_as db (store_after r) /\
                    cart_items (store_after r) = cart_items db)).
  { subst r. unfold checkout, store_after. cbv zeta. rewrite Huser.
    destruct (cart_of db user_id) as [|item rest] eqn:Hrows; [contradiction|].
    rewrite Hamounts, Hpaise.
    change (pending (commit (change (with_users
              (update_where User.id user_id
                 (set_profile (CheckoutForm.delivery_address form)
                              (CheckoutForm.contact_number form)))) (begin db))))
      with (with_profile user_id form db).
    rewrite (first_short_products db (with_profile user_id form db)) by reflexivity.
    destruct (first_short db (item :: rest)) as [[short|]|] eqn:Hshort.
    - simpl. repeat split; eauto.
    - match goal with
      | |- context [place_items ?m ?i ?c ?d] =>
          destruct (place_items m i c d) as [placed|] eqn:Hplaced
      end.
      + apply place_items_frame in Hplaced. destruct Hplaced as (Hplaced & _).
        simpl in Hplaced.
        repeat split_match; simpl; (split; [eauto | split; [solve [auto] |]]);
          intros (short & Hwrong); discriminate.
      + simpl. split; [eauto | split; [reflexivity |]].
        intros (short & Hwrong); discriminate.
    - simpl. split; [eauto | split; [reflexivity |]].
      intros (short & Hwrong); discriminate. }
  destruct Husers as (Hfirst & Husers & Hshort).
  repeat split; try assumption.
  - unfold User_get. rewrite Husers. apply (User_get_with_profile db user_id form u Huser).
  - apply Hshort; assumption.
  - apply Hshort; assumption.
  - apply Hshort; assumption.
  - apply Hshort; assumption.
  - apply Hshort; assumption.
  - apply Hshort; assumption.
  - apply Hshort; assumption.
Qed.

(** ** Checkout: cash on delivery *)


Lemma NoDup_app_cons_end {A : Type} (l : list A) (x : A) :
  NoDup l -> ~ In x l -> NoDup (l ++ [x]).
Proof.
  induction l as [|y l IH]; simpl; intros Hl Hx.
  - constructor; [tauto | constructor].
  - apply NoDup_cons_iff in Hl. destruct Hl as (Hy & Hl).
    constructor.
    + rewrite in_app_iff. simpl. intros [H | [H | []]]; [tauto | subst; tauto].
    + apply IH; tauto.
Qed.

(** ** The cart bound *)

Lemma key_determines_row {A : Type} (key : A -> Z) (rows : list A) (x y : A) :
  NoDup (map key rows) -> In x rows -> In y rows -> key x = key y -> x = y.
Proof.
  induction rows as [|r rows IH]; simpl; intros Hkeys Hx Hy Hsame; [contradiction|].
  apply NoDup_cons_iff in Hkeys. destruct Hkeys as (Hfresh & Hkeys).
  destruct Hx as [-> | Hx], Hy as [-> | Hy].
  - reflexivity.
  - exfalso. apply Hfresh. rewrite Hsame. apply in_map. exact Hy.
  - exfalso. apply Hfresh. rewrite <- Hsame. apply in_map. exact Hx.
  - apply IH; assumption.
Qed.

Lemma fold_max_bounds (ids : list Z) : forall i,
  i <= fold_left Z.max ids i /\ forall j, In j ids -> j <= fold_left Z.max ids i.
Proof.
  induction ids as [|k ids IH]; simpl; intros i.
  - split; [lia | contradiction].
  - destruct (IH (Z.max i k)) as (Hstart & Hrest). split; [lia|].
    intros j [<- | Hj]; [lia | apply Hrest; exact Hj].
Qed.

(** The next rowid is not in use. *)
Lemma next_rowid_fresh (ids : list Z) : ~ In (next_rowid ids) ids.
Proof.
  destruct ids as [|i rest]; simpl; [tauto|].
  destruct (fold_max_bounds rest i) as (Hstart & Hrest).
  intros [Hhead | Htail]; [lia | apply Hrest in Htail; lia].
Qed.

Lemma keys_after_filter {A : Type} (key : A -> Z) (keep : A -> bool) (rows : list A) :
  NoDup (map key rows) -> NoDup (map key (filter keep rows)).
Proof.
  induction rows as [|r rows IH]; simpl; intros Hkeys; [constructor|].
  apply NoDup_cons_iff in Hkeys. destruct Hkeys as (Hfresh & Hkeys).
  destruct (keep r); simpl; [|apply IH; exact Hkeys].
  constructor; [|apply IH; exact Hkeys].
  intros Hin. apply Hfresh. apply in_map_iff in Hin. destruct Hin as (x & Hx & Hin).
  apply filter_In in Hin. rewrite <- Hx. apply in_map. tauto.
Qed.

Lemma keys_after_update (pk n : Z) (rows : list CartItem.t) :
  map CartItem.id (update_where CartItem.id pk (set_quantity n) rows) = map CartItem.id rows.
Proof.
  unfold update_where. rewrite map_map. apply map_ext. intros r.
  destruct (CartItem.id r =? pk); reflexivity.
Qed.

(** The bound and the key survive a change that only drops cart rows. *)
Lemma bound_after_filter db keep :
  cart_bounded db -> cart_keyed db ->
  cart_bounded (with_cart_items (filter keep) db) /\
  cart_keyed (with_cart_items (filter keep) db).
Proof.
  intros Hbound Hkeys. split.
  - intros item Hin. simpl in Hin. apply filter_In in Hin. destruct Hin as (Hin & _).
    exact (Hbound item Hin).
  - unfold cart_keyed. simpl. apply keys_after_filter. exact Hkeys.
Qed.

(** They survive a new quantity on one row, if that quantity fits the
    row's product. *)
Lemma bound_after_update db cart_item n product :
  cart_bounded db -> cart_keyed db ->
  In cart_item (cart_items db) ->
  product_of db cart_item = Some product ->
  1 <= n <= Product.stock product ->
  cart_bounded (with_cart_items
                  (update_where CartItem.id (CartItem.id cart_item) (set_quantity n)) db) /\
  cart_keyed (with_cart_items
                (update_where CartItem.id (CartItem.id cart_item) (set_quantity n)) db).
Proof.
  intros Hbound Hkeys Hin Hproduct Hfits. split.
  - intros item Hitem. simpl in Hitem. unfold update_where in Hitem.
    apply in_map_iff in Hitem. destruct Hitem as (row & <- & Hrow).
    destruct (CartItem.id row =? CartItem.id cart_item) eqn:Hsame.
    + apply Z.eqb_eq in Hsame.
      assert (row = cart_item) as ->
        by (apply (key_determines_row CartItem.id (cart_items db)); assumption).
      exists product. split; [exact Hproduct | exact Hfits].
    + exact (Hbound row Hrow).
  - unfold cart_keyed. simpl. rewrite keys_after_update. exact Hkeys.
Qed.

Lemma find_in {A : Type} (test : A -> bool) (rows : list A) (x : A) :
  find test rows = Some x -> In x rows /\ test x = true.
Proof. apply find_some. Qed.

(** [add_to_cart] keeps every cart quantity within [[1, stock]]. *)
Lemma add_to_cart_keeps_bound session_user product_id db :
  cart_bounded db -> cart_keyed db ->
  cart_bounded (store_after (add_to_cart session_user product_id db)) /\
  cart_keyed (store_after (add_to_cart session_user product_id db)).
Proof.
  intros Hbound Hkeys. unfold add_to_cart, store_after. cbv zeta.
  destruct session_user as [user_id|]; [|split; assumption].
  destruct (Product_get db product_id) as [product|] eqn:Hproduct; [|split; assumption].
  destruct (Product.stock product <=? 0) eqn:Hstock; [split; assumption|].
  apply Z.leb_gt in Hstock.
  destruct (cart_item_for db user_id product_id) as [cart_item|] eqn:Hitem.
  - apply find_in in Hitem. destruct Hitem as (Hin & Htest).
    apply andb_true_iff in Htest. destruct Htest as (_ & Hpid). apply Z.eqb_eq in Hpid.
    destruct (CartItem.quantity cart_item >=? Product.stock product) eqn:Hfull;
      [split; assumption|].
    simpl. apply (bound_after_update db cart_item _ product); try assumption.
    + unfold product_of. rewrite Hpid. exact Hproduct.
    + destruct (Hbound cart_item Hin) as (p & _ & Hq & _).
      rewrite Z.geb_leb in Hfull. apply Z.leb_gt in Hfull. lia.
  - simpl. split.
    + intros item Hitem'. simpl in Hitem'. apply in_app_iff in Hitem'.
      destruct Hitem' as [Hold | [<- | []]]; [exact (Hbound item Hold)|].
      exists product. split; [exact Hproduct | simpl; lia].
    + unfold cart_keyed. simpl. rewrite map_app. simpl.
      apply NoDup_app_cons_end; [exact Hkeys | apply next_rowid_fresh].
Qed.

(** [update_cart] keeps every cart quantity within [[1, stock]]. *)
Lemma update_cart_keeps_bound session_user item_id new_quantity db :
  cart_bounded db -> cart_keyed db ->
  cart_bounded (store_after (update_cart session_user item_id new_quantity db)) /\
  cart_keyed (store_after (update_cart session_user item_id new_quantity db)).
Proof.
  intros Hbound Hkeys. unfold update_cart, store_after. cbv zeta.
  destruct session_user as [user_id|]; [|split; assumption].
  destruct (CartItem_get db item_id) as [cart_item|] eqn:Hitem; [|split; assumption].
  apply find_in in Hitem. destruct Hitem as (Hin & Hid). apply Z.eqb_eq in Hid.
  destruct (negb (CartItem.user_id cart_item =? user_id)); [split; assumption|].
  destruct new_quantity as [n|]; [|split; assumption].
  destruct (n <? 0) eqn:Hneg; [split; assumption|]. apply Z.ltb_ge in Hneg.
  destruct (n =? 0) eqn:Hzero.
  - simpl. apply bound_after_filter; assumption.
  - apply Z.eqb_neq in Hzero.
    destruct (product_of db cart_item) as [product|] eqn:Hproduct; [|split; assumption].
    simpl. rewrite <- Hid.
    apply (bound_after_update db cart_item _ product); try assumption.
    destruct (Hbound cart_item Hin) as (p & Hp & Hq). rewrite Hproduct in Hp.
    injection Hp as <-.
    destruct (n >? Product.stock product) eqn:Hover.
    + lia.
    + rewrite Z.gtb_ltb in Hover. apply Z.ltb_ge in Hover. lia.
Qed.

(** So does [remove_from_cart]. *)
Lemma remove_from_cart_keeps_bound session_user item_id db :
  cart_bounded db -> cart_keyed db ->
  cart_bounded (store_after (remove_from_cart session_user item_id db)) /\
  cart_keyed (store_after (remove_from_cart session_user item_id db)).
Proof.
  intros Hbound Hkeys. unfold remove_from_cart, store_after. cbv zeta.
  destruct session_user as [user_id|]; [|split; assumption].
  destruct (CartItem_get db item_id) as [cart_item|]; [|split; assumption].
  destruct (negb (CartItem.user_id cart_item =? user_id)); [split; assumption|].
  simpl. apply bound_after_filter; assumption.
Qed.

(** ** The order lookup *)

(** A status change on the rows of one order leaves the lookup by
    (id, transaction id) on the same row, in its new status. *)
Lemma find_order_after_status internal_order_id razorpay_order_id db o st :
  find_order internal_order_id razorpay_order_id db = Ok (Some o) ->
  find_order internal_order_id razorpay_order_id
    (with_orders (update_where Order.id (Order.id o) (set_status st)) db)
  = Ok (Some (set_status st o)).
Proof.
  unfold order_for, bind.
  destruct (matches_integer numeric_affinity internal_order_id) as [by_id|]; [|discriminate].
  destruct (matches_text text_affinity razorpay_order_id) as [by_tid|]; [|discriminate].
  intros Hfind. injection Hfind as Hfind. simpl orders. unfold update_where.
  rewrite find_map_stable.
  - rewrite Hfind. simpl. rewrite Z.eqb_refl. reflexivity.
  - intros row. destruct (Order.id row =? Order.id o); reflexivity.
Qed.

(** ** The webhook: signature gate *)

(** A verified delivery is answered by what the dispatch does. *)
Lemma webhook_verified env payload sig event db :
  is_verified env payload sig event ->
  webhook env payload sig db =
    match deliver event (begin db) with
    | (Ok _, s') => (Reply "OK" 200, s')
    | (Raise _, s') => (Reply "Internal Server Error" 500, s')
    end.
Proof.
  intros (key & claimed & Hkey & Hkey_ne & -> & Hsig_ne & Hmac & Hjson).
  unfold razorpay_webhook.
  rewrite (eqb_string_false _ _ Hsig_ne), Hkey, (eqb_string_false _ _ Hkey_ne).
  rewrite Hmac, String.eqb_refl, Hjson. reflexivity.
Qed.

(** With [config.py] as it stands there is no key secret: every delivery
    is turned away before its signature is looked at, and nothing is
    written. *)
Lemma repository_config_webhook_refuses razorpay_installed payload sig db :
  let r := webhook (Config razorpay_installed) payload sig db in
  (fst r = Reply "Unauthorized" 401 \/ fst r = Reply "Internal Server Error" 500) /\
  untouched db (snd r).
Proof.
  unfold razorpay_webhook, untouched. simpl.
  destruct sig as [claimed|]; [destruct (String.eqb claimed "")|]; simpl; auto.
Qed.

(** C5. A delivery without a signature header, or whose header differs
    from the HMAC-SHA256 recomputed over the raw payload, is refused on
    its signature (401 [Unauthorized] when the header is missing, 400
    [Signature mismatch] when it is wrong) and touches nothing: no commit
    is made, nothing is left pending, and the store is as before. *)
Theorem webhook_bad_signature_fails_closed env payload sig db :
  no_signature sig = true \/ is_mismatched env payload sig ->
  let r := webhook env payload sig db in
  Unauthorized (fst r) /\ untouched db (snd r) /\ store_after r = db.
Proof.
  intros Hbad r. subst r. unfold razorpay_webhook, Unauthorized, untouched, store_after.
  destruct Hbad as [Hnone | (key & claimed & Hkey & Hkey_ne & -> & Hsig_ne & Hmac)].
  - destruct sig as [claimed|]; simpl in Hnone.
    + rewrite Hnone. simpl. auto.
    + simpl. auto.
  - rewrite (eqb_string_false _ _ Hsig_ne), Hkey, (eqb_string_false _ _ Hkey_ne).
    rewrite (eqb_string_false _ _ Hmac). simpl. auto.
Qed.

(** ** The webhook: [payment.failed] *)

Lemma failed_event_applies event razorpay_order_id internal_order_id o db :
  event_of_type event "payment.failed" razorpay_order_id ->
  note event "internal_order_id" = Ok internal_order_id ->
  truthy internal_order_id = true ->
  find_order internal_order_id razorpay_order_id db = Ok (Some o) ->
  Order.status o = "Payment Initiated" ->
  deliver event (begin db) =
    (Ok tt,
     commit (change (with_orders
       (update_where Order.id (Order.id o) (set_status "Payment Failed"))) (begin db))).
Proof.
  intros (Htype & (payment_id & Hid) & Hrzp) Hnote Htruthy Hfind Hstatus.
  unfold dispatch, mbind, lift. rewrite Htype.
  change (eq_str (PStr "payment.failed") "payment.captured") with false.
  change (eq_str (PStr "payment.failed") "payment.failed") with true.
  unfold on_payment_failed, mbind, lift, query, execute, session_commit.
  rewrite Hid, Hrzp, Hnote, Htruthy. cbv beta iota.
  change (pending (begin db)) with db. rewrite Hfind, Hstatus.
  reflexivity.
Qed.

(** C1 (as the code has it). A verified [payment.failed] delivery whose
    (internal order id, Razorpay order id) pair finds an order in status
    [Payment Initiated] is acknowledged and moves that order to
    [Payment Failed] in one commit; it changes nothing else: every
    product keeps the stock it had (the reservation is not released),
    and carts and order items are as before. *)
Theorem payment_failed_marks_order_only
  env payload sig event razorpay_order_id internal_order_id o db :
  is_verified env payload sig event ->
  event_of_type event "payment.failed" razorpay_order_id ->
  note event "internal_order_id" = Ok internal_order_id ->
  truthy internal_order_id = true ->
  find_order internal_order_id razorpay_order_id db = Ok (Some o) ->
  Order.status o = "Payment Initiated" ->
  let r := webhook env payload sig db in
  let db' := store_after r in
  fst r = Reply "OK" 200 /\
  db' = with_orders (update_where Order.id (Order.id o) (set_status "Payment Failed")) db /\
  commits (snd r) = [db'] /\
  find_order internal_order_id razorpay_order_id db' = Ok (Some (set_status "Payment Failed" o)) /\
  products db' = products db /\
  cart_items db' = cart_items db /\
  order_items db' = order_items db /\
  users db' = users db.
Proof.
  intros Hverified Hevent Hnote Htruthy Hfind Hstatus r db'. subst db' r.
  rewrite (webhook_verified _ _ _ _ _ Hverified).
  rewrite (failed_event_applies _ _ _ _ _ Hevent Hnote Htruthy Hfind Hstatus).
  unfold store_after. simpl.
  repeat split; try reflexivity.
  apply find_order_after_status. exact Hfind.
Qed.

(** ** The webhook: incomplete metadata *)


(** A key that is not among the notes is missing. *)
Lemma absent_note_missing event entries key :
  entity_field event "notes" = Ok (PDict entries) ->
  assoc key entries = None ->
  missing_note event key.
Proof.
  intros Hnotes Habsent. exists PNone. unfold note, bind. rewrite Hnotes. simpl.
  rewrite Habsent. split; reflexivity.
Qed.




(** ** The webhook: [payment.captured] *)

(** The lookup reads the order table only. *)
Lemma find_order_orders internal_order_id razorpay_order_id db db' :
  orders db' = orders db ->
  find_order internal_order_id razorpay_order_id db'
  = find_order internal_order_id razorpay_order_id db.
Proof. intros Horders. unfold order_for. rewrite Horders. reflexivity. Qed.

Lemma captured_event_applies
  event razorpay_order_id internal_order_id user_id_from_notes by_user o db :
  event_of_type event "payment.captured" razorpay_order_id ->
  note event "internal_order_id" = Ok internal_order_id ->
  truthy internal_order_id = true ->
  note event "user_id" = Ok user_id_from_notes ->
  truthy user_id_from_notes = true ->
  matches_integer numeric_affinity user_id_from_notes = Ok by_user ->
  find_order internal_order_id razorpay_order_id db = Ok (Some o) ->
  Order.status o = "Payment Initiated" ->
  deliver event (begin db) =
    (Ok tt,
     mkSession (cleared by_user (confirmed o db)) (cleared by_user (confirmed o db))
               [confirmed o db; cleared by_user (confirmed o db)]).
Proof.
  intros (Htype & (payment_id & Hid) & Hrzp) Hnote Htruthy Huser Huser_truthy Hbind
         Hfind Hstatus.
  unfold dispatch, mbind, lift. rewrite Htype.
  change (eq_str (PStr "payment.captured") "payment.captured") with true.
  unfold on_payment_captured, mbind, lift, query, execute, session_commit.
  rewrite Hid, Hrzp, Hnote, Huser, Htruthy, Huser_truthy.
  change (true && true) with true. cbv beta iota.
  change (pending (begin db)) with db. rewrite Hfind, Hstatus.
  change ("Payment Initiated" =? "Payment Initiated")%string with true. cbv beta iota.
  unfold cart_without, bind. rewrite Hbind. reflexivity.
Qed.

(** An event for an order that is found but is not in
    [Payment Initiated] is absorbed. *)
Lemma captured_event_absorbed
  event razorpay_order_id internal_order_id user_id_from_notes o s :
  event_of_type event "payment.captured" razorpay_order_id ->
  note event "internal_order_id" = Ok internal_order_id ->
  note event "user_id" = Ok user_id_from_notes ->
  find_order internal_order_id razorpay_order_id (pending s) = Ok (Some o) ->
  Order.status o <> "Payment Initiated" ->
  deliver event s = (Ok tt, s).
Proof.
  intros (Htype & (payment_id & Hid) & Hrzp) Hnote Huser Hfind Hstatus.
  unfold dispatch, mbind, lift. rewrite Htype.
  change (eq_str (PStr "payment.captured") "payment.captured") with true.
  unfold on_payment_captured, mbind, lift, query.
  rewrite Hid, Hrzp, Hnote, Huser.
  destruct (truthy internal_order_id && truthy user_id_from_notes); [|reflexivity].
  rewrite Hfind, (eqb_string_false _ _ Hstatus). reflexivity.
Qed.

(** C4. A verified [payment.captured] delivery for an order in
    [Payment Initiated], delivered twice: the first delivery commits one
    status change (the order becomes [Confirmed]) and then one cart
    deletion; the second finds the order by the same (id, Razorpay order
    id) pair, sees that its status is no longer [Payment Initiated], and
    is acknowledged without a commit, leaving the store exactly as the
    first delivery left it. *)
Theorem captured_twice_applies_once
  env payload sig event razorpay_order_id internal_order_id user_id_from_notes by_user o db :
  is_verified env payload sig event ->
  event_of_type event "payment.captured" razorpay_order_id ->
  note event "internal_order_id" = Ok internal_order_id ->
  truthy internal_order_id = true ->
  note event "user_id" = Ok user_id_from_notes ->
  truthy user_id_from_notes = true ->
  matches_integer numeric_affinity user_id_from_notes = Ok by_user ->
  find_order internal_order_id razorpay_order_id db = Ok (Some o) ->
  Order.status o = "Payment Initiated" ->
  let first := webhook env payload sig db in
  let second := webhook env payload sig (store_after first) in
  fst first = Reply "OK" 200 /\
  commits (snd first) = [confirmed o db; cleared by_user (confirmed o db)] /\
  store_after first = cleared by_user (confirmed o db) /\
  find_order internal_order_id razorpay_order_id (store_after first)
    = Ok (Some (set_status "Confirmed" o)) /\
  fst second = Reply "OK" 200 /\
  untouched (store_after first) (snd second) /\
  store_after second = store_after first.
Proof.
  intros Hverified Hevent Hnote Htruthy Huser Huser_truthy Hbind Hfind Hstatus first second.
  assert (Hfirst : first =
            (Reply "OK" 200,
             mkSession (cleared by_user (confirmed o db)) (cleared by_user (confirmed o db))
                       [confirmed o db; cleared by_user (confirmed o db)])).
  { subst first. rewrite (webhook_verified _ _ _ _ _ Hverified).
    rewrite (captured_event_applies _ _ _ _ _ _ _ Hevent Hnote Htruthy Huser Huser_truthy
               Hbind Hfind Hstatus).
    reflexivity. }
  assert (Hafter : find_order internal_order_id razorpay_order_id
                     (cleared by_user (confirmed o db))
                   = Ok (Some (set_status "Confirmed" o))).
  { rewrite (find_order_orders _ _ (confirmed o db)) by reflexivity.
    apply find_order_after_status. exact Hfind. }
  subst second. rewrite Hfirst. unfold store_after. simpl fst. simpl snd. simpl durable.
  simpl commits.
  rewrite (webhook_verified _ _ _ _ _ Hverified).
  rewrite (captured_event_absorbed _ _ _ _ _ (begin (cleared by_user (confirmed o db)))
             Hevent Hnote Huser Hafter)
    by (simpl; discriminate).
  unfold untouched. simpl. repeat split; try reflexivity. exact Hafter.
Qed.

(** C6 (as the code has it). When a verified [payment.captured] delivery
    is applied to an order in [Payment Initiated] and the user id in its
    notes is the order's owner (a rowid: positive, within SQLite's integer
    range), the cart rows deleted are all the rows of
    that user, whatever product they are for; the rows of every other
    user stay, unchanged and in order. *)
Theorem captured_clears_owner_cart
  env payload sig event razorpay_order_id internal_order_id o db :
  is_verified env payload sig event ->
  event_of_type event "payment.captured" razorpay_order_id ->
  note event "internal_order_id" = Ok internal_order_id ->
  truthy internal_order_id = true ->
  note event "user_id" = Ok (PInt (Order.user_id o)) ->
  0 < Order.user_id o < 2 ^ 63 ->
  find_order internal_order_id razorpay_order_id db = Ok (Some o) ->
  Order.status o = "Payment Initiated" ->
  let db' := store_after (webhook env payload sig db) in
  cart_items db'
    = filter (fun c => negb (CartItem.user_id c =? Order.user_id o)) (cart_items db) /\
  (forall c, In c (cart_items db') <->
             In c (cart_items db) /\ CartItem.user_id c <> Order.user_id o) /\
  products db' = products db.
Proof.
  intros Hverified Hevent Hnote Htruthy Huser Howner Hfind Hstatus db'.
  assert (Huser_truthy : truthy (PInt (Order.user_id o)) = true).
  { simpl. apply negb_true_iff, Z.eqb_neq. lia. }
  assert (Hbind : matches_integer numeric_affinity (PInt (Order.user_id o))
                  = Ok (fun col => col =? Order.user_id o)).
  { unfold matches_integer, sqlite_integer.
    replace (- 2 ^ 63 <=? Order.user_id o) with true by (symmetry; apply Z.leb_le; lia).
    replace (Order.user_id o <? 2 ^ 63) with true by (symmetry; apply Z.ltb_lt; lia).
    reflexivity. }
  assert (Hcart : cart_items db'
            = filter (fun c => negb (CartItem.user_id c =? Order.user_id o)) (cart_items db)).
  { subst db'. rewrite (webhook_verified _ _ _ _ _ Hverified).
    rewrite (captured_event_applies _ _ _ _ (fun col => col =? Order.user_id o) _ _
               Hevent Hnote Htruthy Huser Huser_truthy Hbind Hfind Hstatus).
    reflexivity. }
  split; [exact Hcart | split].
  - intros c. rewrite Hcart, filter_In, negb_true_iff, Z.eqb_neq. reflexivity.
  - subst db'. rewrite (webhook_verified _ _ _ _ _ Hverified).
    rewrite (captured_event_applies _ _ _ _ (fun col => col =? Order.user_id o) _ _
               Hevent Hnote Htruthy Huser Huser_truthy Hbind Hfind Hstatus).
    reflexivity.
Qed.

(** ** The webhook and the cart bound *)

Ltac split_innermost :=
  match goal with
  | |- context [match ?x with _ => _ end] =>
      lazymatch x with
      | context [match _ with _ => _ end] => fail
      | _ => destruct x eqn:?
      end
  end.

(** Whatever the event, the dispatch writes no product and, of the cart
    table, can only drop rows. *)
Lemma dispatch_narrows event db :
  narrows db (durable (snd (deliver event (begin db)))).
Proof.
  assert (Hsame : narrows db db).
  { split; [reflexivity|]. exists (fun _ => true).
    symmetry. apply forallb_filter_id. apply forallb_forall. reflexivity. }
  unfold dispatch, on_payment_captured, on_payment_failed,
    mbind, lift, query, execute, session_commit, pass, cart_without, bind.
  repeat (split_innermost; cbv beta iota;
          cbn [fst snd durable pending commits begin commit change]);
    try exact Hsame;
    try (split; [reflexivity | exists (fun _ => true); apply Hsame]).
  split; [reflexivity | eexists; reflexivity].
Qed.

Lemma webhook_narrows env payload sig db :
  narrows db (store_after (webhook env payload sig db)).
Proof.
  assert (Hsame : narrows db db).
  { split; [reflexivity|]. exists (fun _ => true).
    symmetry. apply forallb_filter_id. apply forallb_forall. reflexivity. }
  pose proof (dispatch_narrows) as Hdispatch.
  unfold razorpay_webhook, store_after. cbv zeta.
  repeat (split_innermost; cbn [fst snd durable begin]); try exact Hsame.
  all: match goal with
       | H : deliver ?event (begin ?d) = (_, ?s') |- narrows ?d (durable ?s') =>
           specialize (Hdispatch event d); rewrite H in Hdispatch; exact Hdispatch
       end.
Qed.

(** The webhook keeps every cart quantity within [[1, stock]]. *)
Lemma webhook_keeps_bound env payload sig db :
  cart_bounded db -> cart_keyed db ->
  cart_bounded (store_after (webhook env payload sig db)) /\
  cart_keyed (store_after (webhook env payload sig db)).
Proof.
  intros Hbound Hkeys.
  destruct (webhook_narrows env payload sig db) as (Hproducts & keep & Hcart).
  split.
  - intros item Hin. rewrite Hcart in Hin. apply filter_In in Hin. destruct Hin as (Hin & _).
    rewrite (product_of_products db) by exact Hproducts. exact (Hbound item Hin).
  - unfold cart_keyed. rewrite Hcart. apply keys_after_filter. exact Hkeys.
Qed.

(** C8 (as the code has it). Starting from a store in which every cart
    item's quantity lies in [[1, product.stock]] (and cart item ids are
    unique), the same holds after any sequence of add-to-cart,
    cart-update, cart-removal and webhook requests. Checkout is not among
    them: it lowers stock while cart rows stay. *)
Theorem cart_bound_kept_outside_checkout env requests : forall db,
  Forall not_checkout requests ->
  cart_bounded db -> cart_keyed db ->
  cart_bounded (run env requests db) /\ cart_keyed (run env requests db).
Proof.
  induction requests as [|r requests IH]; intros db Hall Hbound Hkeys.
  - split; assumption.
  - pose proof (Forall_inv Hall) as Hr. pose proof (Forall_inv_tail Hall) as Hrest.
    assert (Hstep : cart_bounded (store_after (answer env r db)) /\
                    cart_keyed (store_after (answer env r db))).
    { destruct r; simpl in Hr; try contradiction; simpl.
      - apply add_to_cart_keeps_bound; assumption.
      - apply update_cart_keeps_bound; assumption.
      - apply remove_from_cart_keeps_bound; assumption.
      - apply webhook_keeps_bound; assumption. }
    destruct Hstep as (Hbound' & Hkeys').
    exact (IH _ Hrest Hbound' Hkeys').
Qed.

(** * Further properties *)

(** ** The cart handlers *)

Lemma find_app_none {A : Type} (test : A -> bool) (rows : list A) (x : A) :
  find test rows = None -> find test (rows ++ [x]) = if test x then Some x else None.
Proof.
  induction rows as [|r rows IH]; simpl; [reflexivity|].
  destruct (test r); [discriminate | exact IH].
Qed.

(** X1. A request to a login-protected route (add to cart, update cart,
    remove from cart, checkout) that carries no logged-in user is
    redirected to the login page and writes nothing. *)
Theorem logged_out_requests_write_nothing env r db :
  logged_out r ->
  fst (answer env r db) = Redirect "login" /\ untouched db (snd (answer env r db)).
Proof.
  unfold untouched.
  destruct r as [[u|] p | [u|] i q | [u|] i | [u|] m g t | payload sig];
    simpl; intros Hout; try contradiction; auto.
Qed.

(** X2. [add_to_cart] by a logged-in user adds exactly one unit of the
    product to that user's cart when the product exists, has stock, and
    the cart holds fewer units than the stock; in every other case the
    quantity in the cart stays as it was. Nothing but the cart table is
    written. *)
Theorem add_to_cart_adds_one_unit user_id product_id db :
  let db' := store_after (add_to_cart (Some user_id) product_id db) in
  quantity_in_cart db' user_id product_id
  = match Product_get db product_id with
    | Some product =>
        if (0 <? Product.stock product)
           && (quantity_in_cart db user_id product_id <? Product.stock product)
        then quantity_in_cart db user_id product_id + 1
        else quantity_in_cart db user_id product_id
    | None => quantity_in_cart db user_id product_id
    end
  /\ only_cart_differs db db'.
Proof.
  unfold add_to_cart, store_after, only_cart_differs. cbv zeta.
  destruct (Product_get db product_id) as [product|] eqn:Hproduct; [|simpl; auto].
  destruct (Product.stock product <=? 0) eqn:Hstock.
  - apply Z.leb_le in Hstock.
    replace (0 <? Product.stock product) with false by (symmetry; apply Z.ltb_ge; lia).
    simpl. auto.
  - apply Z.leb_gt in Hstock.
    replace (0 <? Product.stock product) with true by (symmetry; apply Z.ltb_lt; lia).
    unfold quantity_in_cart at 2 3 4.
    destruct (cart_item_for db user_id product_id) as [cart_item|] eqn:Hitem.
    + rewrite Z.geb_leb.
      destruct (Product.stock product <=? CartItem.quantity cart_item) eqn:Hfull.
      * replace (CartItem.quantity cart_item <? Product.stock product) with false
          by (symmetry; apply Z.ltb_ge; apply Z.leb_le; exact Hfull).
        simpl. unfold quantity_in_cart. rewrite Hitem. auto.
      * replace (CartItem.quantity cart_item <? Product.stock product) with true
          by (symmetry; apply Z.ltb_lt; apply Z.leb_gt; exact Hfull).
        simpl. split; [|auto].
        unfold quantity_in_cart, cart_item_for. simpl cart_items. unfold update_where.
        rewrite find_map_stable.
        -- unfold cart_item_for in Hitem. rewrite Hitem. simpl. rewrite Z.eqb_refl.
           reflexivity.
        -- intros row. destruct (CartItem.id row =? CartItem.id cart_item); reflexivity.
    + replace (0 <? Product.stock product) with true by (symmetry; apply Z.ltb_lt; lia).
      simpl. split; [|auto].
      unfold quantity_in_cart, cart_item_for. simpl cart_items.
      unfold cart_item_for in Hitem. rewrite (find_app_none _ _ _ Hitem).
      simpl. rewrite !Z.eqb_refl. reflexivity.
Qed.

Lemma CartItem_get_gone db pk :
  CartItem_get (with_cart_items (delete_where CartItem.id pk) db) pk = None.
Proof.
  unfold CartItem_get, delete_where. simpl cart_items.
  induction (cart_items db) as [|row rows IH]; simpl; [reflexivity|].
  destruct (CartItem.id row =? pk) eqn:Hrow; simpl; [exact IH|].
  rewrite Hrow. exact IH.
Qed.

(** X3. [update_cart] by the owner of a cart row: a negative quantity
    changes nothing; zero deletes the row; a positive quantity is stored
    as it is when the product has that much stock and is cut down to the
    stock otherwise (so it is stored as zero or less when the stock is). *)
Theorem update_cart_sets_quantity user_id item_id n db cart_item :
  CartItem_get db item_id = Some cart_item ->
  CartItem.user_id cart_item = user_id ->
  let db' := store_after (update_cart (Some user_id) item_id (Some n) db) in
  (n < 0 -> db' = db) /\
  (n = 0 -> CartItem_get db' item_id = None) /\
  (0 < n -> forall product, product_of db cart_item = Some product ->
     CartItem_get db' item_id
     = Some (set_quantity (Z.min n (Product.stock product)) cart_item)) /\
  only_cart_differs db db'.
Proof.
  intros Hitem Howner. unfold update_cart, store_after, only_cart_differs. cbv zeta.
  rewrite Hitem, Howner, Z.eqb_refl. simpl negb. cbv iota.
  pose proof (find_in _ _ _ Hitem) as (_ & Hid). apply Z.eqb_eq in Hid.
  destruct (n <? 0) eqn:Hneg.
  - apply Z.ltb_lt in Hneg. simpl. repeat split; try reflexivity; intros; lia.
  - apply Z.ltb_ge in Hneg. destruct (n =? 0) eqn:Hzero.
    + apply Z.eqb_eq in Hzero. simpl. repeat split; try reflexivity; try (intros; lia).
      intros _. apply CartItem_get_gone.
    + apply Z.eqb_neq in Hzero.
      destruct (product_of db cart_item) as [product|] eqn:Hproduct.
      * simpl. repeat split; try reflexivity; try (intros; lia).
        intros _ product' Hproduct'. injection Hproduct' as <-.
        unfold CartItem_get. simpl cart_items. unfold update_where.
        rewrite find_map_stable.
        -- unfold CartItem_get in Hitem. rewrite Hitem. simpl. rewrite Hid, Z.eqb_refl.
           f_equal. f_equal.
           destruct (n >? Product.stock product) eqn:Hover.
           ++ apply Z.gtb_lt in Hover. lia.
           ++ rewrite Z.gtb_ltb in Hover. apply Z.ltb_ge in Hover. lia.
        -- intros row. destruct (CartItem.id row =? item_id) eqn:Hrow; simpl;
             rewrite ?Hrow; reflexivity.
      * simpl. repeat split; try reflexivity; try (intros; lia).
        intros _ product' Hproduct'. discriminate.
Qed.

Lemma filter_update_hidden {A : Type} (keep : A -> bool) (key : A -> Z) (pk : Z)
  (f : A -> A) (rows : list A) :
  (forall r, In r rows -> key r = pk -> keep r = false /\ keep (f r) = false) ->
  filter keep (update_where key pk f rows) = filter keep rows.
Proof.
  induction rows as [|row rows IH]; simpl; intros Hhidden; [reflexivity|].
  rewrite IH by (intros r Hr; apply Hhidden; right; exact Hr).
  destruct (key row =? pk) eqn:Hrow; [|reflexivity].
  apply Z.eqb_eq in Hrow. destruct (Hhidden row (or_introl eq_refl) Hrow) as (-> & ->).
  reflexivity.
Qed.

Lemma filter_delete_hidden {A : Type} (keep : A -> bool) (key : A -> Z) (pk : Z)
  (rows : list A) :
  (forall r, In r rows -> key r = pk -> keep r = false) ->
  filter keep (delete_where key pk rows) = filter keep rows.
Proof.
  induction rows as [|row rows IH]; simpl; intros Hhidden; [reflexivity|].
  destruct (key row =? pk) eqn:Hrow; simpl.
  - apply Z.eqb_eq in Hrow. rewrite (Hhidden row (or_introl eq_refl) Hrow).
    apply IH. intros r Hr. apply Hhidden. right. exact Hr.
  - rewrite IH by (intros r Hr; apply Hhidden; right; exact Hr). reflexivity.
Qed.

(** X4. A cart request (add, update, remove) made by one user leaves the
    cart rows of every other user exactly as they were, and writes no
    other table; in particular [update_cart] and [remove_from_cart] do
    nothing to a row that belongs to somebody else. (Cart item ids are
    unique.) *)
Theorem cart_requests_leave_other_carts env user_id r db :
  cart_request_by user_id r ->
  cart_keyed db ->
  let db' := store_after (answer env r db) in
  carts_of_others user_id db' = carts_of_others user_id db /\ only_cart_differs db db'.
Proof.
  intros Hby Hkeys.
  assert (Hmine : forall cart_item pk,
            In cart_item (cart_items db) -> CartItem.id cart_item = pk ->
            CartItem.user_id cart_item = user_id ->
            forall r0, In r0 (cart_items db) -> CartItem.id r0 = pk ->
              negb (CartItem.user_id r0 =? user_id) = false).
  { intros cart_item pk Hin Hid Huser r0 Hr0 Hid0.
    assert (r0 = cart_item) as ->.
    { apply (key_determines_row CartItem.id (cart_items db));
        [exact Hkeys | exact Hr0 | exact Hin | congruence]. }
    rewrite Huser, Z.eqb_refl. reflexivity. }
  unfold carts_of_others, only_cart_differs, store_after.
  destruct r as [[u|] p | [u|] i q | [u|] i | u m g t | payload sig];
    simpl in Hby; try contradiction; subst u; simpl.
  - unfold add_to_cart. cbv zeta.
    destruct (Product_get db p) as [product|]; [|simpl; auto].
    destruct (Product.stock product <=? 0); [simpl; auto|].
    destruct (cart_item_for db user_id p) as [cart_item|] eqn:Hitem.
    + destruct (CartItem.quantity cart_item >=? Product.stock product); [simpl; auto|].
      simpl. split; [|auto].
      apply find_in in Hitem. destruct Hitem as (Hin & Htest).
      apply andb_true_iff in Htest. destruct Htest as (Huser & _). apply Z.eqb_eq in Huser.
      apply filter_update_hidden. intros r0 Hr0 Hid0. split.
      * exact (Hmine cart_item _ Hin eq_refl Huser r0 Hr0 Hid0).
      * simpl. exact (Hmine cart_item _ Hin eq_refl Huser r0 Hr0 Hid0).
    + simpl. split; [|auto]. rewrite filter_app. simpl. rewrite Z.eqb_refl. simpl.
      apply app_nil_r.
  - unfold update_cart. cbv zeta.
    destruct (CartItem_get db i) as [cart_item|] eqn:Hitem; [|simpl; auto].
    apply find_in in Hitem. destruct Hitem as (Hin & Hid). apply Z.eqb_eq in Hid.
    destruct (CartItem.user_id cart_item =? user_id) eqn:Huser; simpl negb; cbv iota;
      [|simpl; auto].
    apply Z.eqb_eq in Huser.
    destruct q as [n|]; [|simpl; auto].
    destruct (n <? 0); [simpl; auto|].
    destruct (n =? 0).
    + simpl. split; [|auto]. apply filter_delete_hidden.
      intros r0 Hr0 Hid0. exact (Hmine cart_item _ Hin Hid Huser r0 Hr0 Hid0).
    + destruct (product_of db cart_item) as [product|]; [|simpl; auto].
      simpl. split; [|auto]. apply filter_update_hidden. intros r0 Hr0 Hid0. split.
      * exact (Hmine cart_item _ Hin Hid Huser r0 Hr0 Hid0).
      * simpl. exact (Hmine cart_item _ Hin Hid Huser r0 Hr0 Hid0).
  - unfold remove_from_cart. cbv zeta.
    destruct (CartItem_get db i) as [cart_item|] eqn:Hitem; [|simpl; auto].
    apply find_in in Hitem. destruct Hitem as (Hin & Hid). apply Z.eqb_eq in Hid.
    destruct (CartItem.user_id cart_item =? user_id) eqn:Huser; simpl negb; cbv iota;
      [|simpl; auto].
    apply Z.eqb_eq in Huser.
    simpl. split; [|auto]. apply filter_delete_hidden.
    intros r0 Hr0 Hid0. exact (Hmine cart_item _ Hin Hid Huser r0 Hr0 Hid0).
Qed.

(** ** What a checkout can leave behind *)

(** The store after a checkout is one of: the store as it was; the store
    with the profile saved; or, the stock check passed and the cart
    moved into a new order, that store, with the order still [Pending]
    or marked [Payment Initiated]. *)
Lemma checkout_outcomes env session_user m gateway utcnow db :
  let r := check_out env session_user m gateway utcnow db in
  store_after r = db \/
  exists user_id form,
    session_user = Some user_id /\ m = POST form /\
    (store_after r = with_profile user_id form db \/
     exists amounts placed,
       cart_amounts db (cart_of db user_id) = Ok amounts /\
       first_short db (cart_of db user_id) = Ok None /\
       place_items (CheckoutForm.payment_mode form) (next_rowid (map Order.id (orders db)))
         (cart_of db user_id)
         (with_orders
            (fun rows =>
               (rows ++ [new_order_row user_id utcnow (float_sum amounts) form db])%list)
            (with_profile user_id form db))
       = Ok placed /\
       (store_after r = placed \/
        exists razorpay_order_id,
          store_after r
          = with_orders
              (update_where Order.id (next_rowid (map Order.id (orders db)))
                 (initiated razorpay_order_id)) placed)).
Proof.
  unfold checkout, store_after. cbv zeta.
  destruct session_user as [user_id|]; [|left; reflexivity].
  destruct (cart_of db user_id) as [|item rest] eqn:Hrows; [left; reflexivity|].
  destruct (cart_amounts db (item :: rest)) as [amounts|] eqn:Hamounts; [|left; reflexivity].
  destruct (int_of_float _) as [paise|]; [|left; reflexivity].
  destruct m as [|form]; [left; reflexivity|].
  destruct (User_get db user_id) as [u|]; [|left; reflexivity].
  right. exists user_id, form. rewrite Hrows. split; [reflexivity | split; [reflexivity|]].
  change (pending (commit (change (with_users
            (update_where User.id user_id
               (set_profile (CheckoutForm.delivery_address form)
                            (CheckoutForm.contact_number form)))) (begin db))))
    with (with_profile user_id form db).
  rewrite (first_short_products db (with_profile user_id form db)) by reflexivity.
  destruct (first_short db (item :: rest)) as [[short|]|] eqn:Hshort;
    [left; reflexivity | | left; reflexivity].
  match goal with
  | |- context [place_items ?mode ?i ?c ?d] =>
      destruct (place_items mode i c d) as [placed|] eqn:Hplaced
  end; [|left; reflexivity].
  destruct (is_online _).
  - destruct (_ && _); [|left; reflexivity].
    destruct gateway as [razorpay_order_id|e]; [|left; reflexivity].
    right. exists amounts, placed.
    split; [first [exact Hamounts | reflexivity]
           | split; [first [exact Hshort | reflexivity] | split; [exact Hplaced|]]].
    right. exists razorpay_order_id. reflexivity.
  - right. exists amounts, placed.
    split; [first [exact Hamounts | reflexivity]
           | split; [first [exact Hshort | reflexivity] | split; [exact Hplaced|]]].
    left. reflexivity.
Qed.

(** ** One cart row per user and product *)

Lemma NoDup_map_filter {A B : Type} (key : A -> B) (keep : A -> bool) (rows : list A) :
  NoDup (map key rows) -> NoDup (map key (filter keep rows)).
Proof.
  induction rows as [|r rows IH]; simpl; intros Hkeys; [constructor|].
  apply NoDup_cons_iff in Hkeys. destruct Hkeys as (Hfresh & Hkeys).
  destruct (keep r); simpl; [|apply IH; exact Hkeys].
  constructor; [|apply IH; exact Hkeys].
  intros Hin. apply Hfresh. apply in_map_iff in Hin. destruct Hin as (x & Hx & Hin).
  apply filter_In in Hin. rewrite <- Hx. apply in_map. tauto.
Qed.

Lemma pairs_after_update (pk n : Z) (rows : list CartItem.t) :
  map (fun c => (CartItem.user_id c, CartItem.product_id c))
      (update_where CartItem.id pk (set_quantity n) rows)
  = map (fun c => (CartItem.user_id c, CartItem.product_id c)) rows.
Proof.
  unfold update_where. rewrite map_map. apply map_ext. intros r.
  destruct (CartItem.id r =? pk); reflexivity.
Qed.

(** The three cart handlers keep the pairs unique: a row is inserted
    only when the lookup by (user, product) found none. *)
Lemma cart_handlers_keep_pairs env r db :
  (exists u, cart_request_by u r) ->
  cart_pairs_unique db ->
  cart_pairs_unique (store_after (answer env r db)).
Proof.
  intros (user_id & Hby) Hpairs. unfold cart_pairs_unique, store_after in *.
  destruct r as [[u|] p | [u|] i q | [u|] i | u m g t | payload sig];
    simpl in Hby; try contradiction; subst u; simpl.
  - unfold add_to_cart. cbv zeta.
    destruct (Product_get db p) as [product|]; [|exact Hpairs].
    destruct (Product.stock product <=? 0); [exact Hpairs|].
    destruct (cart_item_for db user_id p) as [cart_item|] eqn:Hitem.
    + destruct (CartItem.quantity cart_item >=? Product.stock product); [exact Hpairs|].
      simpl. rewrite pairs_after_update. exact Hpairs.
    + simpl. rewrite map_app. simpl. apply NoDup_app_cons_end; [exact Hpairs|].
      intros Hin. apply in_map_iff in Hin. destruct Hin as (row & Hpair & Hrow).
      injection Hpair as Huser Hproduct.
      unfold cart_item_for in Hitem.
      pose proof (find_none _ _ Hitem row Hrow) as Hmiss. simpl in Hmiss.
      rewrite Huser, Hproduct, !Z.eqb_refl in Hmiss. discriminate.
  - unfold update_cart. cbv zeta.
    destruct (CartItem_get db i) as [cart_item|]; [|exact Hpairs].
    destruct (negb (CartItem.user_id cart_item =? user_id)); [exact Hpairs|].
    destruct q as [n|]; [|exact Hpairs].
    destruct (n <? 0); [exact Hpairs|].
    destruct (n =? 0).
    + simpl. apply NoDup_map_filter. exact Hpairs.
    + destruct (product_of db cart_item) as [product|]; [|exact Hpairs].
      simpl. rewrite pairs_after_update. exact Hpairs.
  - unfold remove_from_cart. cbv zeta.
    destruct (CartItem_get db i) as [cart_item|]; [|exact Hpairs].
    destruct (negb (CartItem.user_id cart_item =? user_id)); [exact Hpairs|].
    simpl. apply NoDup_map_filter. exact Hpairs.
Qed.

(** Moving a cart into an order writes nothing into the cart table
    beyond dropping rows. *)
Lemma checkout_narrows_cart env session_user m gateway utcnow db :
  exists keep,
    cart_items (store_after (check_out env session_user m gateway utcnow db))
    = filter keep (cart_items db).
Proof.
  assert (Hsame : cart_items db = filter (fun _ => true) (cart_items db)).
  { symmetry. apply forallb_filter_id. apply forallb_forall. reflexivity. }
  destruct (checkout_outcomes env session_user m gateway utcnow db)
    as [-> | (user_id & form & _ & _ & [-> | (amounts & placed & _ & _ & Hplaced & Hafter)])].
  - exists (fun _ => true). exact Hsame.
  - exists (fun _ => true). exact Hsame.
  - apply place_items_cart in Hplaced. simpl in Hplaced.
    assert (Hplaced' : exists keep, cart_items placed = filter keep (cart_items db)).
    { rewrite Hplaced. destruct (String.eqb _ "COD"); eexists; [reflexivity | exact Hsame]. }
    destruct Hafter as [-> | (razorpay_order_id & ->)]; exact Hplaced'.
Qed.

Lemma request_keeps_pairs env r db :
  cart_pairs_unique db -> cart_pairs_unique (store_after (answer env r db)).
Proof.
  intros Hpairs.
  destruct r as [[u|] p | [u|] i q | [u|] i | u m g t | payload sig];
    try exact Hpairs;
    try (apply cart_handlers_keep_pairs; [exists u; reflexivity | exact Hpairs]).
  - simpl. destruct (checkout_narrows_cart env u m g t db) as (keep & Hcart).
    unfold cart_pairs_unique. rewrite Hcart. apply NoDup_map_filter. exact Hpairs.
  - simpl. destruct (webhook_narrows env payload sig db) as (_ & keep & Hcart).
    unfold cart_pairs_unique. rewrite Hcart. apply NoDup_map_filter. exact Hpairs.
Qed.

(** X5. If no user has two cart rows for the same product, then no
    sequence of cart, checkout and webhook requests brings about such a
    pair of rows: [add_to_cart] raises the quantity of the row it finds
    and inserts one only when it finds none. *)
Theorem one_cart_row_per_product env requests : forall db,
  cart_pairs_unique db -> cart_pairs_unique (run env requests db).
Proof.
  induction requests as [|r requests IH]; intros db Hpairs; [exact Hpairs|].
  apply IH. apply request_keeps_pairs. exact Hpairs.
Qed.

(** ** Stock stays non-negative *)

(** A cart that passed the stock check asks of no product more than it
    has. *)
Lemma first_short_none db cart :
  first_short db cart = Ok None -> Forall (in_stock db) cart.
Proof.
  induction cart as [|item rest IH]; simpl; intros Hcheck; [constructor|].
  destruct (product_of db item) as [product|] eqn:Hproduct; [|discriminate].
  destruct (CartItem.quantity item >? Product.stock product) eqn:Hgt; [discriminate|].
  constructor; [|apply IH; exact Hcheck].
  exists product. split; [exact Hproduct|].
  rewrite Z.gtb_ltb in Hgt. apply Z.ltb_ge in Hgt. exact Hgt.
Qed.

(** With one row per (user, product), the rows of one user are for
    different products. *)
Lemma cart_products_distinct db user_id :
  cart_pairs_unique db -> NoDup (map CartItem.product_id (cart_of db user_id)).
Proof.
  unfold cart_pairs_unique, cart_of.
  induction (cart_items db) as [|row rows IH]; simpl; intros Hpairs; [constructor|].
  apply NoDup_cons_iff in Hpairs. destruct Hpairs as (Hfresh & Hpairs).
  destruct (CartItem.user_id row =? user_id) eqn:Huser; [|apply IH; exact Hpairs].
  simpl. constructor; [|apply IH; exact Hpairs].
  intros Hin. apply Hfresh. apply in_map_iff in Hin. destruct Hin as (other & Hsame & Hin).
  apply filter_In in Hin. destruct Hin as (Hin & Hother).
  apply Z.eqb_eq in Huser, Hother.
  apply in_map_iff. exists other. split; [|exact Hin].
  rewrite Hsame, Hother, Huser. reflexivity.
Qed.

Lemma place_item_products mode order_id item db product db' :
  product_of db item = Some product ->
  place_item mode order_id item db = Ok db' ->
  products db'
  = update_where Product.id (Product.id product)
      (set_stock (Product.stock product - CartItem.quantity item)) (products db).
Proof.
  intros Hproduct. unfold place_item. rewrite Hproduct. intros Hstep.
  injection Hstep as <-. destruct (String.eqb mode "COD"); reflexivity.
Qed.

(** The loop never takes a stock below zero when each product is asked
    for once and no more than it has. *)
Lemma place_items_nonneg mode order_id cart : forall db db',
  NoDup (map CartItem.product_id cart) ->
  Forall (in_stock db) cart ->
  stock_nonneg db ->
  place_items mode order_id cart db = Ok db' ->
  stock_nonneg db'.
Proof.
  induction cart as [|item rest IH]; simpl; intros db db' Hdistinct Hstock Hnonneg Hloop.
  - injection Hloop as <-. exact Hnonneg.
  - apply NoDup_cons_iff in Hdistinct. destruct Hdistinct as (Hfresh & Hdistinct).
    pose proof (Forall_inv Hstock) as (product & Hproduct & Hle).
    pose proof (Forall_inv_tail Hstock) as Hrest.
    destruct (place_item mode order_id item db) as [db1|] eqn:Hstep; [|discriminate].
    pose proof (place_item_products _ _ _ _ _ _ Hproduct Hstep) as Hproducts.
    pose proof (Product_get_id _ _ _ Hproduct) as Hid.
    apply (IH db1 db'); [exact Hdistinct | | | exact Hloop].
    + apply Forall_forall. intros c Hc. rewrite Forall_forall in Hrest.
      destruct (Hrest c Hc) as (pc & Hpc & Hqc).
      exists pc. split; [|exact Hqc].
      unfold product_of in *.
      rewrite (Product_get_after_stock db db1 _ _ _ Hproducts), Hpc. simpl.
      pose proof (Product_get_id _ _ _ Hpc) as Hidc.
      assert (Hdiff : (Product.id pc =? Product.id product) = false).
      { apply Z.eqb_neq. rewrite Hidc, Hid. intros Hsame. apply Hfresh.
        rewrite <- Hsame. apply in_map. exact Hc. }
      rewrite Hdiff. reflexivity.
    + intros p Hp. rewrite Hproducts in Hp. unfold update_where in Hp.
      apply in_map_iff in Hp. destruct Hp as (row & <- & Hrow).
      destruct (Product.id row =? Product.id product); [simpl; lia | apply Hnonneg; exact Hrow].
Qed.

Lemma cart_handlers_keep_products session_user product_id item_id new_quantity db :
  products (store_after (add_to_cart session_user product_id db)) = products db /\
  products (store_after (update_cart session_user item_id new_quantity db)) = products db /\
  products (store_after (remove_from_cart session_user item_id db)) = products db.
Proof.
  unfold add_to_cart, update_cart, remove_from_cart, store_after. cbv zeta.
  repeat split; repeat split_match; reflexivity.
Qed.

Lemma request_keeps_stock env r db :
  cart_pairs_unique db -> stock_nonneg db ->
  stock_nonneg (store_after (answer env r db)).
Proof.
  intros Hpairs Hnonneg.
  assert (Hframe : forall db', products db' = products db -> stock_nonneg db').
  { intros db' Hsame p Hp. rewrite Hsame in Hp. apply Hnonneg. exact Hp. }
  destruct r as [u p | u i q | u i | u m g t | payload sig]; simpl.
  - apply Hframe. apply (cart_handlers_keep_products u p 0 None db).
  - apply Hframe. apply (cart_handlers_keep_products u 0 i q db).
  - apply Hframe. apply (cart_handlers_keep_products u 0 i None db).
  - destruct (checkout_outcomes env u m g t db)
      as [-> | (user_id & form & _ & _ & [-> | (amounts & placed & _ & Hcheck & Hplaced & Hafter)])].
    + exact Hnonneg.
    + apply Hframe. reflexivity.
    + assert (Hplaced' : stock_nonneg placed).
      { apply (place_items_nonneg _ _ _ _ _ (cart_products_distinct db user_id Hpairs))
          in Hplaced; [exact Hplaced | | apply Hframe; reflexivity].
        apply first_short_none in Hcheck.
        apply Forall_forall. intros c Hc. rewrite Forall_forall in Hcheck.
        destruct (Hcheck c Hc) as (pc & Hpc & Hqc). exists pc. split; [exact Hpc | exact Hqc]. }
      destruct Hafter as [-> | (razorpay_order_id & ->)]; exact Hplaced'.
  - apply Hframe. apply webhook_narrows.
Qed.

(** X6. Served one after the other, no sequence of cart, checkout and
    webhook requests takes the stock of a product below zero, starting
    from a store where no stock is negative and no user has two cart rows
    for one product: a checkout goes through only if every cart row asks
    for no more than its product has. *)
Theorem stock_never_negative env requests : forall db,
  cart_pairs_unique db -> stock_nonneg db ->
  stock_nonneg (run env requests db).
Proof.
  induction requests as [|r requests IH]; intros db Hpairs Hnonneg; [exact Hnonneg|].
  apply IH.
  - apply request_keeps_pairs. exact Hpairs.
  - apply request_keeps_stock; assumption.
Qed.

(** ** Checkout: the order it places *)



Lemma update_where_fresh {A : Type} (key : A -> Z) (pk : Z) (f : A -> A) (rows : list A) :
  ~ In pk (map key rows) -> update_where key pk f rows = rows.
Proof.
  induction rows as [|r rows IH]; simpl; intros Hfresh; [reflexivity|].
  destruct (key r =? pk) eqn:Hr.
  - apply Z.eqb_eq in Hr. tauto.
  - rewrite IH by tauto. reflexivity.
Qed.




(** ** The webhook: what it refuses and what it absorbs *)

Abbreviation is_signed := (signed hmac_sha256_hexdigest).

(** X9. A delivery with a good signature whose payload is not JSON is
    answered 400 [Invalid JSON] and writes nothing. *)
Theorem webhook_rejects_invalid_json env payload sig db :
  is_signed env payload sig ->
  json_loads payload = None ->
  let r := webhook env payload sig db in
  fst r = Reply "Invalid JSON" 400 /\ untouched db (snd r).
Proof.
  intros (key & claimed & Hkey & Hkey_ne & -> & Hsig_ne & Hmac) Hjson r. subst r.
  unfold razorpay_webhook, untouched.
  rewrite (eqb_string_false _ _ Hsig_ne), Hkey, (eqb_string_false _ _ Hkey_ne).
  rewrite Hmac, String.eqb_refl, Hjson. simpl. auto.
Qed.




(** A reference that is an integer outside 64 bits cannot be bound:
    the lookup raises, whatever the order id. *)
Lemma find_order_unbindable internal_order_id n db :
  sqlite_integer n = false ->
  exists e, find_order internal_order_id (PInt n) db = Raise e.
Proof.
  intros Hrange. unfold order_for, bind.
  destruct (matches_integer numeric_affinity internal_order_id);
    [|eexists; reflexivity].
  unfold matches_text. rewrite Hrange. eexists. reflexivity.
Qed.


(** X12. A verified delivery that does not have the envelope's shape -
    no ["event"] key, or a recognised type without the
    [payload.payment.entity] object - is answered 500 and writes
    nothing. *)
Theorem webhook_malformed_envelope env payload sig event db :
  is_verified env payload sig event ->
  (exists e, getitem event "event" = Raise e) \/
  ((getitem event "event" = Ok (PStr "payment.captured") \/
    getitem event "event" = Ok (PStr "payment.failed")) /\
   exists e, entity event = Raise e) ->
  let r := webhook env payload sig db in
  fst r = Reply "Internal Server Error" 500 /\ untouched db (snd r).
Proof.
  intros Hverified Hbad r. subst r.
  rewrite (webhook_verified _ _ _ _ _ Hverified).
  assert (Hraise : exists e, deliver event (begin db) = (Raise e, begin db)).
  { unfold dispatch, mbind, lift.
    destruct Hbad as [(e & ->) | ([-> | ->] & e & Hentity)].
    - exists e. reflexivity.
    - exists e. change (eq_str (PStr "payment.captured") "payment.captured") with true.
      unfold on_payment_captured, mbind, lift, entity_field, bind. rewrite Hentity.
      reflexivity.
    - exists e. change (eq_str (PStr "payment.failed") "payment.captured") with false.
      change (eq_str (PStr "payment.failed") "payment.failed") with true.
      unfold on_payment_failed, mbind, lift, entity_field, bind. rewrite Hentity.
      reflexivity. }
  destruct Hraise as (e & ->). unfold untouched. simpl. auto.
Qed.

(** A recognised delivery whose entity has no notes object - the key
    is not there, or its value is not a dict, as Razorpay's empty list -
    is not set aside as incomplete: reading the notes raises, and the
    delivery is answered 500 with nothing written. *)
Lemma delivery_without_notes_fails env payload sig event razorpay_order_id db :
  is_verified env payload sig event ->
  event_of_type event "payment.captured" razorpay_order_id \/
  event_of_type event "payment.failed" razorpay_order_id ->
  (exists e, note event "internal_order_id" = Raise e) ->
  let r := webhook env payload sig db in
  fst r = Reply "Internal Server Error" 500 /\ untouched db (snd r).
Proof.
  intros Hverified Hevent (e & Hnote) r. subst r.
  rewrite (webhook_verified _ _ _ _ _ Hverified).
  assert (Hraise : deliver event (begin db) = (Raise e, begin db)).
  { unfold dispatch, mbind, lift.
    destruct Hevent as [(Htype & (payment_id & Hid) & Hrzp)
                       | (Htype & (payment_id & Hid) & Hrzp)]; rewrite Htype.
    - change (eq_str (PStr "payment.captured") "payment.captured") with true.
      unfold on_payment_captured, mbind, lift. rewrite Hid, Hrzp, Hnote. reflexivity.
    - change (eq_str (PStr "payment.failed") "payment.captured") with false.
      change (eq_str (PStr "payment.failed") "payment.failed") with true.
      unfold on_payment_failed, mbind, lift. rewrite Hid, Hrzp, Hnote. reflexivity. }
  rewrite Hraise. unfold untouched. simpl. auto.
Qed.

(** X13. The cart a [payment.captured] delivery clears is the cart of
    the user id written in its notes, whoever owns the order: when the
    notes name user [v], every cart row of [v] is deleted and every other
    row stays. *)
Theorem captured_clears_cart_named_in_notes
  env payload sig event razorpay_order_id internal_order_id v o db :
  is_verified env payload sig event ->
  event_of_type event "payment.captured" razorpay_order_id ->
  note event "internal_order_id" = Ok internal_order_id ->
  truthy internal_order_id = true ->
  note event "user_id" = Ok (PInt v) ->
  v <> 0 -> sqlite_integer v = true ->
  find_order internal_order_id razorpay_order_id db = Ok (Some o) ->
  Order.status o = "Payment Initiated" ->
  let db' := store_after (webhook env payload sig db) in
  cart_items db' = filter (fun c => negb (CartItem.user_id c =? v)) (cart_items db) /\
  orders db' = update_where Order.id (Order.id o) (set_status "Confirmed") (orders db).
Proof.
  intros Hverified Hevent Hnote Htruthy Huser Hv Hrange Hfind Hstatus db'.
  assert (Huser_truthy : truthy (PInt v) = true).
  { simpl. apply negb_true_iff, Z.eqb_neq. exact Hv. }
  assert (Hbind : matches_integer numeric_affinity (PInt v) = Ok (fun col => col =? v)).
  { unfold matches_integer. rewrite Hrange. reflexivity. }
  subst db'. rewrite (webhook_verified _ _ _ _ _ Hverified).
  rewrite (captured_event_applies _ _ _ _ (fun col => col =? v) _ _
             Hevent Hnote Htruthy Huser Huser_truthy Hbind Hfind Hstatus).
  split; reflexivity.
Qed.

(** ** The webhook and the order table *)

Lemma find_order_in internal_order_id razorpay_order_id db o :
  find_order internal_order_id razorpay_order_id db = Ok (Some o) -> In o (orders db).
Proof.
  unfold order_for, bind.
  destruct (matches_integer numeric_affinity internal_order_id); [|discriminate].
  destruct (matches_text text_affinity razorpay_order_id); [|discriminate].
  intros Hfind. injection Hfind as Hfind. apply find_some in Hfind. tauto.
Qed.

(** Whatever the event, the dispatch writes neither users nor order
    items, and in the order table it can only move one order out of
    [Payment Initiated]. *)
Lemma dispatch_moves_status event db :
  users (durable (snd (deliver event (begin db)))) = users db /\
  order_items (durable (snd (deliver event (begin db)))) = order_items db /\
  status_moved db (durable (snd (deliver event (begin db)))).
Proof.
  unfold dispatch, on_payment_captured, on_payment_failed,
    mbind, lift, query, execute, session_commit, pass, cart_without, bind.
  repeat (split_innermost; cbv beta iota;
          cbn [fst snd durable pending commits begin commit change]);
    try (split; [reflexivity | split; [reflexivity | left; reflexivity]]);
    (split; [reflexivity | split; [reflexivity | right]]);
    match goal with
    | Hfind : find_order _ _ _ = Ok (Some ?o), Hstatus : String.eqb _ _ = true |- _ =>
        exists o; eexists;
        split; [exact (find_order_in _ _ _ _ Hfind)
               | split; [apply String.eqb_eq; exact Hstatus
                        | split; [| reflexivity]]]; auto
    end.
Qed.

Lemma webhook_moves_status env payload sig db :
  users (store_after (webhook env payload sig db)) = users db /\
  order_items (store_after (webhook env payload sig db)) = order_items db /\
  status_moved db (store_after (webhook env payload sig db)).
Proof.
  assert (Hsame : users db = users db /\ order_items db = order_items db /\
                  status_moved db db).
  { split; [reflexivity | split; [reflexivity | left; reflexivity]]. }
  pose proof dispatch_moves_status as Hdispatch.
  unfold razorpay_webhook, store_after. cbv zeta.
  repeat (split_innermost; cbn [fst snd durable begin]); try exact Hsame.
  all: match goal with
       | H : deliver ?event (begin ?d) = (_, ?s') |- _ =>
           specialize (Hdispatch event d); rewrite H in Hdispatch; exact Hdispatch
       end.
Qed.

(** X14. No delivery to the webhook creates or deletes an order, or
    writes a user, a product or an order item; and an order that is not
    in [Payment Initiated] - pending, confirmed, failed - is left exactly
    as it is, whatever is delivered. (Order ids are unique.) *)
Theorem webhook_leaves_settled_orders env payload sig db :
  NoDup (map Order.id (orders db)) ->
  let db' := store_after (webhook env payload sig db) in
  map Order.id (orders db') = map Order.id (orders db) /\
  (forall o, In o (orders db) -> Order.status o <> "Payment Initiated" ->
     In o (orders db')) /\
  users db' = users db /\ products db' = products db /\
  order_items db' = order_items db.
Proof.
  intros Hkeys db'. subst db'.
  destruct (webhook_moves_status env payload sig db) as (Husers & Hitems & Hmoved).
  destruct (webhook_narrows env payload sig db) as (Hproducts & _).
  repeat split; try assumption.
  - destruct Hmoved as [-> | (o & st & _ & _ & _ & ->)]; [reflexivity|].
    unfold update_where. rewrite map_map. apply map_ext. intros row.
    destruct (Order.id row =? Order.id o); reflexivity.
  - intros o' Hin Hsettled.
    destruct Hmoved as [-> | (o & st & Ho & Hstatus & _ & ->)]; [exact Hin|].
    unfold update_where. apply in_map_iff. exists o'. split; [|exact Hin].
    destruct (Order.id o' =? Order.id o) eqn:Hsame; [|reflexivity].
    apply Z.eqb_eq in Hsame.
    assert (o' = o) as ->
      by (apply (key_determines_row Order.id (orders db)); assumption).
    contradiction.
Qed.

(** ** Accounts *)

Lemma find_none_not_in {A : Type} (key : A -> string) (rows : list A) (k : string) :
  find (fun r => String.eqb (key r) k) rows = None -> ~ In k (map key rows).
Proof.
  intros Hfind Hin. apply in_map_iff in Hin. destruct Hin as (r & Hk & Hr).
  pose proof (find_none _ _ Hfind r Hr) as Hmiss. simpl in Hmiss.
  rewrite Hk, String.eqb_refl in Hmiss. discriminate.
Qed.

(** X15. [register] writes at most one row: it either leaves the store
    as it is or appends one user, who is never an administrator and
    whose id, username and e-mail address are not in use; ids, usernames
    and e-mail addresses stay unique, and every existing row stays as it
    is. *)
Theorem register_keeps_users_unique session_user m password_hash db :
  users_unique db ->
  let db' := store_after (register session_user m password_hash db) in
  users_unique db' /\
  (exists added,
     users db' = (users db ++ added)%list /\
     Forall (fun u => User.is_admin u = false) added /\
     (List.length added <= 1)%nat) /\
  products db' = products db /\ cart_items db' = cart_items db /\
  orders db' = orders db /\ order_items db' = order_items db.
Proof.
  intros (Hids & Hnames & Hemails) db'. subst db'.
  assert (Hsame : users_unique db /\
                  (exists added,
                     users db = (users db ++ added)%list /\
                     Forall (fun u => User.is_admin u = false) added /\
                     (List.length added <= 1)%nat) /\
                  products db = products db /\ cart_items db = cart_items db /\
                  orders db = orders db /\ order_items db = order_items db).
  { split; [repeat split; assumption|]. split; [|auto].
    exists []. split; [symmetry; apply app_nil_r | split; [constructor | simpl; lia]]. }
  unfold register, store_after. cbv zeta.
  destruct session_user as [u|]; [exact Hsame|].
  destruct m as [|form]; [exact Hsame|].
  destruct (_ || _); [exact Hsame|].
  destruct (user_named db (RegisterForm.username form)) as [taken|] eqn:Hname;
    [exact Hsame|].
  destruct (user_with_email db (RegisterForm.email form)) as [taken|] eqn:Hemail;
    [exact Hsame|].
  simpl. split; [|split; [|auto]].
  - unfold users_unique. simpl. rewrite !map_app. simpl. repeat split.
    + apply NoDup_app_cons_end; [exact Hids | apply next_rowid_fresh].
    + apply NoDup_app_cons_end; [exact Hnames | exact (find_none_not_in _ _ _ Hname)].
    + apply NoDup_app_cons_end; [exact Hemails | exact (find_none_not_in _ _ _ Hemail)].
  - eexists [_]. split; [reflexivity | split; [repeat constructor | simpl; lia]].
Qed.

(** X16. Register, then log in: after a registration that went through,
    logging in under the registered name with a password that
    [check_password_hash] accepts against the stored hash opens a session
    for the new user, whose id is the one the registration gave. *)
Theorem register_then_login check_password_hash form password_hash password db :
  fst (register None (RegisterSubmit form) password_hash db) = Redirect "login" ->
  check_password_hash password_hash password = true ->
  let db' := store_after (register None (RegisterSubmit form) password_hash db) in
  login check_password_hash None (LoginSubmit (RegisterForm.username form) password) db'
  = (Redirect "index", Some (next_rowid (map User.id (users db)))).
Proof.
  unfold register, store_after. cbv zeta.
  destruct (_ || _); [discriminate|].
  destruct (user_named db (RegisterForm.username form)) as [taken|] eqn:Hname;
    [discriminate|].
  destruct (user_with_email db (RegisterForm.email form)) as [taken|]; [discriminate|].
  intros _ Hcheck. simpl. unfold login, user_named. simpl users.
  unfold user_named in Hname. rewrite (find_app_none _ _ _ Hname). simpl.
  rewrite String.eqb_refl. simpl. rewrite Hcheck. reflexivity.
Qed.

(** ** The catalogue *)

Lemma admin_required_denies session_user db :
  ~ admin_session session_user db ->
  admin_required session_user db
  = Some (Redirect (if signed_in session_user then "index" else "login")).
Proof.
  unfold admin_required, admin_session, signed_in. intros Hnot.
  destruct session_user as [user_id|]; [|reflexivity].
  destruct (user_id =? 0) eqn:Hzero; [reflexivity|].
  apply Z.eqb_neq in Hzero. simpl.
  destruct (User_get db user_id) as [user|] eqn:Huser; [|reflexivity].
  destruct (User.is_admin user) eqn:Hadmin; [|reflexivity].
  exfalso. apply Hnot. exists user_id, user. auto.
Qed.

(** X17. Only an administrator changes the catalogue: a request to add,
    edit or delete a product whose session is not that of an existing
    user with [is_admin] set writes nothing and is redirected: to the
    login page when the session holds no user id (or a falsy one), to the
    home page when it holds the id of a user who is no administrator or
    has no row. *)
Theorem catalogue_needs_admin session_user product_id m db :
  ~ admin_session session_user db ->
  let turned_away (r : response * Session) :=
    fst r = Redirect (if signed_in session_user then "index" else "login") /\
    untouched db (snd r) in
  turned_away (admin_add_product session_user m db) /\
  turned_away (admin_edit_product session_user product_id m db) /\
  turned_away (admin_delete_product session_user product_id db).
Proof.
  intros Hnot. cbv zeta.
  unfold admin_add_product, admin_edit_product, admin_delete_product, untouched.
  rewrite (admin_required_denies session_user db Hnot). simpl. auto 10.
Qed.

Lemma Product_get_deleted db pk :
  Product_get (with_products (delete_where Product.id pk) db) pk = None.
Proof.
  unfold Product_get, delete_where. simpl products.
  induction (products db) as [|row rows IH]; simpl; [reflexivity|].
  destruct (Product.id row =? pk) eqn:Hrow; simpl; [exact IH|].
  rewrite Hrow. exact IH.
Qed.

Lemma cart_amounts_missing db cart item :
  In item cart -> product_of db item = None ->
  exists e, cart_amounts db cart = Raise e.
Proof.
  induction cart as [|c rest IH]; simpl; intros Hin Hmissing; [contradiction|].
  destruct Hin as [-> | Hin].
  - rewrite Hmissing. eauto.
  - destruct (product_of db c); [|eauto].
    destruct (IH Hin Hmissing) as (e & ->). eauto.
Qed.

(** X18. Deleting a product does not clear it from the carts: once an
    administrator has deleted a product, the checkout page of every user
    whose cart holds a row for it answers 500, for GET and POST alike,
    and writes nothing. *)
Theorem checkout_after_product_deleted
  env admin product_id user_id item m gateway utcnow db :
  admin_session admin db ->
  In item (cart_of db user_id) ->
  CartItem.product_id item = product_id ->
  Product_get db product_id <> None ->
  let db' := store_after (admin_delete_product admin product_id db) in
  let r := check_out env (Some user_id) m gateway utcnow db' in
  Product_get db' product_id = None /\
  cart_items db' = cart_items db /\
  fst r = Abort 500 /\ untouched db' (snd r).
Proof.
  intros (admin_id & admin_user & -> & Hnonzero & Hadmin_user & Hadmin) Hin Hpid Hexists.
  unfold admin_delete_product, admin_required, store_after. cbv zeta.
  rewrite (proj2 (Z.eqb_neq admin_id 0) Hnonzero), Hadmin_user, Hadmin.
  destruct (Product_get db product_id) as [product|] eqn:Hproduct; [|contradiction].
  rewrite (Product_get_id _ _ _ Hproduct). simpl durable. simpl snd.
  set (db' := with_products (delete_where Product.id product_id) db).
  assert (Hgone : Product_get db' product_id = None) by apply Product_get_deleted.
  split; [exact Hgone | split; [reflexivity|]].
  assert (Hcart : cart_of db' user_id = cart_of db user_id) by reflexivity.
  unfold checkout, untouched. cbv zeta. rewrite Hcart.
  destruct (cart_of db user_id) as [|c rest] eqn:Hrows; [contradiction|].
  destruct (cart_amounts_missing db' (c :: rest) item Hin) as (e & ->).
  { unfold product_of. rewrite Hpid. exact Hgone. }
  simpl. auto.
Qed.

(** A checkout whose total cannot be computed - a cart row's product is
    gone, or the total in paise is not a finite number - is answered 500
    before the handler looks at the method: no profile is saved, no order
    is made. *)
Lemma checkout_stops_on_total env user_id m gateway utcnow db :
  cart_of db user_id <> [] ->
  (exists e, cart_amounts db (cart_of db user_id) = Raise e) \/
  (exists amounts e,
     cart_amounts db (cart_of db user_id) = Ok amounts /\
     int_of_float (PrimFloat.mul (float_sum amounts) (float_of_int 100)) = Raise e) ->
  let r := check_out env (Some user_id) m gateway utcnow db in
  fst r = Abort 500 /\ untouched db (snd r).
Proof.
  intros Hcart Hfails. unfold checkout, untouched. cbv zeta.
  destruct (cart_of db user_id) as [|c rest]; [contradiction|].
  destruct Hfails as [(e & ->) | (amounts & e & -> & ->)]; simpl; auto.
Qed.

(** ** From checkout to the webhook *)



(** ** Every handler *)

Abbreviation enter :=
  (receive float_sum hmac_sha256_hexdigest json_loads numeric_affinity text_affinity).
Abbreviation tour :=
  (browse float_sum hmac_sha256_hexdigest json_loads numeric_affinity text_affinity).

Lemma map_update_where {A B : Type} (key : A -> Z) (g : A -> B) (pk : Z) (f : A -> A)
  (rows : list A) :
  (forall r, g (f r) = g r) -> map g (update_where key pk f rows) = map g rows.
Proof.
  intros Hkept. unfold update_where. rewrite map_map. apply map_ext. intros r.
  destruct (key r =? pk); [apply Hkept | reflexivity].
Qed.

(** Giving the row of key [pk] a label that no other row carries keeps
    the labels distinct. *)
Lemma NoDup_after_rename {A : Type} (key : A -> Z) (label : A -> string) (pk : Z)
  (f : A -> A) (n : string) (rows : list A) :
  NoDup (map key rows) -> NoDup (map label rows) ->
  (forall r, label (f r) = n) ->
  (forall r, In r rows -> key r <> pk -> label r <> n) ->
  NoDup (map label (update_where key pk f rows)).
Proof.
  intros Hkeys Hlabels Hf Hfree.
  induction rows as [|r rows IH]; simpl; [constructor|].
  inversion Hkeys as [|? ? Hk Hkeys']; subst.
  inversion Hlabels as [|? ? Hl Hlabels']; subst.
  destruct (key r =? pk) eqn:Hr.
  - apply Z.eqb_eq in Hr. fold (update_where key pk f rows).
    rewrite update_where_fresh by (rewrite <- Hr; exact Hk).
    constructor; [|exact Hlabels'].
    rewrite Hf. intros Hin. apply in_map_iff in Hin. destruct Hin as (r' & Hlab & Hin).
    apply (Hfree r'); [right; exact Hin | | exact Hlab].
    intros Heq. apply Hk. rewrite Hr, <- Heq. apply in_map. exact Hin.
  - apply Z.eqb_neq in Hr. constructor.
    + intros Hin. apply in_map_iff in Hin. destruct Hin as (r' & Hlab & Hin).
      apply in_map_iff in Hin. destruct Hin as (r0 & Hr0 & Hin0).
      destruct (key r0 =? pk); subst r'.
      * rewrite Hf in Hlab.
        apply (Hfree r); [left; reflexivity | exact Hr | symmetry; exact Hlab].
      * apply Hl. rewrite <- Hlab. apply in_map. exact Hin0.
    + apply IH; [exact Hkeys' | exact Hlabels' |].
      intros r' Hin Hkey. apply Hfree; [right; exact Hin | exact Hkey].
Qed.

Lemma not_taken db pk form :
  taken_by_another db pk form = false ->
  forall r, In r (users db) -> User.id r <> pk ->
    User.username r <> ProfileForm.username form /\
    User.email r <> ProfileForm.email form.
Proof.
  unfold taken_by_another. intros Hfree r Hin Hkey.
  destruct (String.eqb (User.username r) (ProfileForm.username form)
            || String.eqb (User.email r) (ProfileForm.email form)) eqn:Hheld.
  - assert (Htaken : existsb
              (fun u => negb (User.id u =? pk)
                        && (String.eqb (User.username u) (ProfileForm.username form)
                            || String.eqb (User.email u) (ProfileForm.email form)))
              (users db) = true).
    { apply existsb_exists. exists r. split; [exact Hin|].
      rewrite Hheld. apply Z.eqb_neq in Hkey. rewrite Hkey. reflexivity. }
    rewrite Htaken in Hfree. discriminate.
  - apply orb_false_iff in Hheld. destruct Hheld as (Hname & Hemail).
    split; apply String.eqb_neq; assumption.
Qed.

Lemma cart_handlers_keep_users session_user product_id item_id new_quantity db :
  users (store_after (add_to_cart session_user product_id db)) = users db /\
  users (store_after (update_cart session_user item_id new_quantity db)) = users db /\
  users (store_after (remove_from_cart session_user item_id db)) = users db.
Proof.
  unfold add_to_cart, update_cart, remove_from_cart, store_after. cbv zeta.
  repeat split; repeat split_match; reflexivity.
Qed.

(** Of the shop's handlers only [checkout] writes the user table, and
    only the two columns of its form. *)
Lemma request_users env r db :
  users (store_after (answer env r db)) = users db \/
  exists user_id form,
    users (store_after (answer env r db)) = users (with_profile user_id form db).
Proof.
  destruct r as [u p | u i q | u i | u m g t | payload sig]; simpl.
  - left. apply (cart_handlers_keep_users u p 0 None db).
  - left. apply (cart_handlers_keep_users u 0 i q db).
  - left. apply (cart_handlers_keep_users u 0 i None db).
  - destruct (checkout_outcomes env u m g t db)
      as [-> | (user_id & form & _ & _ & [-> | (amounts & placed & _ & _ & Hplaced & Hafter)])].
    + left. reflexivity.
    + right. exists user_id, form. reflexivity.
    + right. exists user_id, form.
      apply place_items_frame in Hplaced. destruct Hplaced as (Husers & _).
      destruct Hafter as [-> | (razorpay_order_id & ->)]; exact Husers.
  - left. apply webhook_moves_status.
Qed.

Lemma register_appends session_user m password_hash db :
  let db' := store_after (register session_user m password_hash db) in
  db' = db \/
  exists form,
    user_named db (RegisterForm.username form) = None /\
    user_with_email db (RegisterForm.email form) = None /\
    db' = with_users
            (fun rows =>
               (rows ++ [User.mk (next_rowid (map User.id (users db)))
                           (RegisterForm.username form) (RegisterForm.email form)
                           password_hash
                           (Some (or_empty (RegisterForm.address form)))
                           (Some (or_empty (RegisterForm.contact_number form)))
                           false])%list) db.
Proof.
  unfold register, store_after. cbv zeta.
  destruct session_user as [u|]; [left; reflexivity|].
  destruct m as [|form]; [left; reflexivity|].
  destruct (_ || _); [left; reflexivity|].
  destruct (user_named db (RegisterForm.username form)) as [taken|] eqn:Hname;
    [left; reflexivity|].
  destruct (user_with_email db (RegisterForm.email form)) as [taken|] eqn:Hemail;
    [left; reflexivity|].
  right. exists form. auto.
Qed.

Lemma profile_outcomes session_user m db :
  let db' := store_after (profile session_user m db) in
  db' = db \/
  exists user form,
    taken_by_another db (User.id user) form = false /\
    db' = with_users (update_where User.id (User.id user) (with_account form)) db.
Proof.
  unfold profile, store_after. cbv zeta.
  destruct session_user as [user_id|]; [|left; reflexivity].
  destruct m as [|form]; [left; reflexivity|].
  destruct (User_get db user_id) as [user|]; [|left; reflexivity].
  destruct (taken_by_another db (User.id user) form) eqn:Htaken; [left; reflexivity|].
  right. exists user, form. auto.
Qed.

Lemma catalogue_keeps_users session_user product_id m db :
  users (store_after (admin_add_product session_user m db)) = users db /\
  users (store_after (admin_edit_product session_user product_id m db)) = users db /\
  users (store_after (admin_delete_product session_user product_id db)) = users db.
Proof.
  unfold admin_add_product, admin_edit_product, admin_delete_product, store_after.
  cbv zeta. repeat split; repeat split_match; reflexivity.
Qed.

Lemma visit_keeps_unique env v db :
  users_unique db -> users_unique (store_after (enter env v db)).
Proof.
  intros Hunique.
  assert (Hframe : forall db', users db' = users db -> users_unique db').
  { intros db' Hsame. unfold users_unique. rewrite Hsame. exact Hunique. }
  destruct Hunique as (Hids & Hnames & Hemails).
  destruct v as [r | u m h | u m | u m | u p m | u p]; simpl.
  - destruct (request_users env r db) as [Hsame | (user_id & form & Hsaved)].
    + apply Hframe. exact Hsame.
    + unfold users_unique. rewrite Hsaved. simpl.
      rewrite !map_update_where by reflexivity. auto.
  - destruct (register_appends u m h db) as [-> | (form & Hname & Hemail & ->)].
    + apply Hframe. reflexivity.
    + unfold users_unique. simpl. rewrite !map_app. simpl. repeat split.
      * apply NoDup_app_cons_end; [exact Hids | apply next_rowid_fresh].
      * apply NoDup_app_cons_end; [exact Hnames | exact (find_none_not_in _ _ _ Hname)].
      * apply NoDup_app_cons_end; [exact Hemails | exact (find_none_not_in _ _ _ Hemail)].
  - destruct (profile_outcomes u m db) as [-> | (user & form & Hfree & ->)].
    + apply Hframe. reflexivity.
    + pose proof (not_taken _ _ _ Hfree) as Hothers.
      unfold users_unique. simpl. repeat split.
      * rewrite map_update_where by reflexivity. exact Hids.
      * apply (NoDup_after_rename User.id User.username _ _ (ProfileForm.username form));
          [exact Hids | exact Hnames | reflexivity |].
        intros r Hin Hkey. apply (Hothers r Hin Hkey).
      * apply (NoDup_after_rename User.id User.email _ _ (ProfileForm.email form));
          [exact Hids | exact Hemails | reflexivity |].
        intros r Hin Hkey. apply (Hothers r Hin Hkey).
  - apply Hframe. apply (catalogue_keeps_users u 0 m db).
  - apply Hframe. apply (catalogue_keeps_users u p m db).
  - apply Hframe. apply (catalogue_keeps_users u p ProductPage db).
Qed.

(** X20. Ids, usernames and e-mail addresses of the users stay unique
    under every sequence of requests to the handlers that write the
    store: [register] looks both up before it inserts, [profile] is held
    to the unique columns at commit, and no other handler writes them. *)
Theorem accounts_stay_unique env visits : forall db,
  users_unique db -> users_unique (tour env visits db).
Proof.
  induction visits as [|v visits IH]; intros db Hunique; simpl.
  - exact Hunique.
  - apply IH. apply visit_keeps_unique. exact Hunique.
Qed.

Lemma visit_credentials env v db :
  exists added,
    credentials (store_after (enter env v db)) = (credentials db ++ added)%list /\
    Forall (fun c => snd c = false) added.
Proof.
  assert (Hframe : forall db', users db' = users db ->
            exists added,
              credentials db' = (credentials db ++ added)%list /\
              Forall (fun c => snd c = false) added).
  { intros db' Hsame. exists []. unfold credentials. rewrite Hsame, app_nil_r.
    split; [reflexivity | constructor]. }
  destruct v as [r | u m h | u m | u m | u p m | u p]; simpl.
  - destruct (request_users env r db) as [Hsame | (user_id & form & Hsaved)].
    + apply Hframe. exact Hsame.
    + exists []. unfold credentials. rewrite Hsaved, app_nil_r. simpl.
      split; [apply map_update_where; reflexivity | constructor].
  - destruct (register_appends u m h db) as [-> | (form & _ & _ & ->)].
    + apply Hframe. reflexivity.
    + eexists [_]. unfold credentials. simpl. rewrite map_app. simpl.
      split; [reflexivity | repeat constructor].
  - destruct (profile_outcomes u m db) as [-> | (user & form & _ & ->)].
    + apply Hframe. reflexivity.
    + exists []. unfold credentials. rewrite app_nil_r. simpl.
      split; [apply map_update_where; reflexivity | constructor].
  - apply Hframe. apply (catalogue_keeps_users u 0 m db).
  - apply Hframe. apply (catalogue_keeps_users u p m db).
  - apply Hframe. apply (catalogue_keeps_users u p ProductPage db).
Qed.

(** X21. No sequence of requests to the handlers that write the store
    changes the id, the password hash or the administrator flag of an
    existing user, or deletes a user; the accounts the requests add are
    not administrators. (The start-up block of the module, which is not
    a request handler, is outside this statement.) *)
Theorem credentials_only_grow env visits : forall db,
  exists added,
    credentials (tour env visits db) = (credentials db ++ added)%list /\
    Forall (fun c => snd c = false) added.
Proof.
  induction visits as [|v visits IH]; intros db; simpl.
  - exists []. rewrite app_nil_r. split; [reflexivity | constructor].
  - destruct (visit_credentials env v db) as (first & Hfirst & Hplain).
    destruct (IH (store_after (enter env v db))) as (rest & Hrest & Hplain').
    exists (first ++ rest)%list. split.
    + rewrite Hrest, Hfirst, app_assoc. reflexivity.
    + apply Forall_app. split; assumption.
Qed.

End Properties.

(** * Worked cases *)

Lemma payment_failed_marks_order_only_witness :
  let r := stub_webhook live "failed" (Some "whsec:failed") awaiting_payment in
  fst r = Reply "OK" 200 /\
  store_after r =
    with_orders (update_where Order.id 1 (set_status "Payment Failed")) awaiting_payment /\
  products (store_after r) = products awaiting_payment.
Proof.
  pose proof (payment_failed_marks_order_only stub_hmac stub_loads stub_numeric stub_text
                live "failed" (Some "whsec:failed") failed_event (PStr "order_R1") (PInt 1)
                (order_1 "Payment Initiated") awaiting_payment) as H.
  cbv zeta in H. unfold stub_webhook.
  destruct H as (H1 & H2 & _ & _ & H3 & _).
  - exists "whsec", "whsec:failed". repeat split; try reflexivity; discriminate.
  - repeat split. exists (PStr "pay_1"). reflexivity.
  - reflexivity.
  - reflexivity.
  - reflexivity.
  - reflexivity.
  - exact (conj H1 (conj H2 H3)).
Defined.

(** C1, as stated, fails: after the verified [payment.failed] delivery
    for Ann's order the order is in [Payment Failed], but the mouse she
    had reserved is not back in stock (4 before, 4 after, not 5). *)
Lemma payment_failed_does_not_restore_stock :
  let r := stub_webhook live "failed" (Some "whsec:failed") awaiting_payment in
  verified stub_hmac stub_loads live "failed" (Some "whsec:failed") failed_event /\
  orders awaiting_payment = [order_1 "Payment Initiated"] /\
  orders (store_after r) = [order_1 "Payment Failed"] /\
  Product_get (store_after r) 1 = Some (mouse 4) /\
  ~ stock_restored 1 awaiting_payment (store_after r).
Proof.
  cbv zeta. split; [|split; [|split; [|split]]].
  - exists "whsec", "whsec:failed". repeat split; try reflexivity; discriminate.
  - reflexivity.
  - vm_compute. reflexivity.
  - vm_compute. reflexivity.
  - intros Hrestored.
    destruct (Hrestored (OrderItem.mk 1 1 1 1 (float_of_int 10)) (or_introl eq_refl) eq_refl
                (mouse 4) eq_refl) as (product' & Hget & Hstock).
    vm_compute in Hget. injection Hget as <-. vm_compute in Hstock. discriminate.
Qed.

Lemma captured_twice_applies_once_witness :
  let first := stub_webhook live "captured" (Some "whsec:captured") awaiting_payment in
  let second := stub_webhook live "captured" (Some "whsec:captured") (store_after first) in
  orders (store_after first) = [order_1 "Confirmed"] /\
  cart_items (store_after first) = [] /\
  List.length (commits (snd first)) = 2%nat /\
  fst second = Reply "OK" 200 /\
  commits (snd second) = [] /\
  store_after second = store_after first.
Proof.
  pose proof (captured_twice_applies_once stub_hmac stub_loads stub_numeric stub_text
                live "captured" (Some "whsec:captured") captured_event (PStr "order_R1")
                (PInt 1) (PInt 1) (fun col => col =? 1)
                (order_1 "Payment Initiated") awaiting_payment) as H.
  cbv zeta in *. unfold stub_webhook.
  destruct H as (_ & Hcommits & Hstore & _ & Hsecond & (_ & _ & Hnone) & Hsame).
  - exists "whsec", "whsec:captured". repeat split; try reflexivity; discriminate.
  - repeat split. exists (PStr "pay_1"). reflexivity.
  - reflexivity.
  - reflexivity.
  - reflexivity.
  - reflexivity.
  - reflexivity.
  - reflexivity.
  - reflexivity.
  - rewrite Hstore in Hsame, Hnone, Hsecond |- *. rewrite Hcommits.
    exact (conj eq_refl (conj eq_refl (conj eq_refl (conj Hsecond (conj Hnone Hsame))))).
Defined.

Lemma webhook_bad_signature_fails_closed_witness :
  let r := stub_webhook live "captured" (Some "forged") awaiting_payment in
  fst r = Reply "Signature mismatch" 400 /\ store_after r = awaiting_payment.
Proof.
  pose proof (webhook_bad_signature_fails_closed stub_hmac stub_loads stub_numeric stub_text
                live "captured" (Some "forged") awaiting_payment) as H.
  cbv zeta in *. unfold stub_webhook. destruct H as (_ & _ & Hstore).
  - right. exists "whsec", "forged". repeat split; try reflexivity; discriminate.
  - exact (conj eq_refl Hstore).
Defined.

Lemma captured_clears_owner_cart_witness :
  cart_items (store_after
                (stub_webhook live "captured" (Some "whsec:captured") awaiting_payment))
  = filter (fun c => negb (CartItem.user_id c =? 1)) (cart_items awaiting_payment).
Proof.
  pose proof (captured_clears_owner_cart stub_hmac stub_loads stub_numeric stub_text
                live "captured" (Some "whsec:captured") captured_event (PStr "order_R1")
                (PInt 1) (order_1 "Payment Initiated") awaiting_payment) as H.
  cbv zeta in H. unfold stub_webhook. destruct H as (Hcart & _).
  - exists "whsec", "whsec:captured". repeat split; try reflexivity; discriminate.
  - repeat split. exists (PStr "pay_1"). reflexivity.
  - reflexivity.
  - reflexivity.
  - reflexivity.
  - simpl. lia.
  - reflexivity.
  - reflexivity.
  - exact Hcart.
Defined.

(** C6, as stated, fails: the keyboard Ann put in her cart after the
    checkout is not part of order 1, yet the verified [payment.captured]
    delivery for order 1 deletes it along with the mouse. *)
Lemma captured_clears_unpurchased_items :
  let r := stub_webhook live "captured" (Some "whsec:captured") awaiting_payment in
  verified stub_hmac stub_loads live "captured" (Some "whsec:captured") captured_event /\
  In (CartItem.mk 2 1 2 1) (cart_items awaiting_payment) /\
  ~ purchased awaiting_payment (order_1 "Payment Initiated") (CartItem.mk 2 1 2 1) /\
  cart_items (store_after r) = [] /\
  ~ purchase_cleared (order_1 "Payment Initiated") awaiting_payment (store_after r).
Proof.
  cbv zeta.
  assert (Hnot : ~ purchased awaiting_payment (order_1 "Payment Initiated")
                     (CartItem.mk 2 1 2 1)).
  { intros (item & Hin & _ & Hproduct). simpl in Hin. destruct Hin as [<- | []].
    discriminate. }
  split; [|split; [|split; [|split]]].
  - exists "whsec", "whsec:captured". repeat split; try reflexivity; discriminate.
  - simpl. auto.
  - exact Hnot.
  - vm_compute. reflexivity.
  - intros Hclaim.
    destruct (Hclaim (CartItem.mk 2 1 2 1)) as (_ & Hkept); [simpl; auto|].
    assert (Hin : In (CartItem.mk 2 1 2 1)
                     (cart_items (store_after
                        (stub_webhook live "captured" (Some "whsec:captured")
                           awaiting_payment)))).
    { apply Hkept. intros (_ & Hbought). exact (Hnot Hbought). }
    vm_compute in Hin. exact Hin.
Qed.





Lemma online_checkout_failure_rolls_back_witness :
  let r := stub_checkout live (Some 1) (POST upi_form) (Raise KeyError) 0 one_in_cart in
  fst r = Redirect "checkout" /\
  order_state_as one_in_cart (store_after r) /\
  cart_items (store_after r) = cart_items one_in_cart.
Proof.
  pose proof (online_checkout_failure_rolls_back plain_sum live (Some 1) upi_form (Raise KeyError) 0
                one_in_cart) as H.
  cbv zeta in H. destruct H as (Hstate & Hcart & _).
  - reflexivity.
  - right. exists KeyError. reflexivity.
  - exact (conj eq_refl (conj Hstate Hcart)).
Defined.

Lemma checkout_saves_profile_first_witness :
  let r := stub_checkout live (Some 1) (POST cod_form) (Raise KeyError) 0 short_of_stock in
  fst r = Redirect "view_cart" /\
  User_get (store_after r) 1
    = Some (User.mk 1 "ann" "ann@example.com" "pbkdf2" (Some "1 Main St") (Some "555") false) /\
  order_state_as short_of_stock (store_after r).
Proof.
  pose proof (checkout_saves_profile_first plain_sum live 1 cod_form (Raise KeyError) 0
                short_of_stock ann [float_of_int 30] 3000) as H.
  cbv zeta in H. destruct H as (_ & _ & Hprofile & Hshort).
  - reflexivity.
  - discriminate.
  - reflexivity.
  - reflexivity.
  - destruct Hshort as (Hreply & _ & _ & Hstate & _).
    + exists (CartItem.mk 1 1 1 3). reflexivity.
    + exact (conj Hreply (conj Hprofile Hstate)).
Defined.

(** C10, as stated, fails: once the administrator has deleted the
    mouse, Ann is logged in and her cart is not empty, yet her checkout
    POST is answered 500 on the total, before the POST branch: nothing is
    committed, and her stored address and contact number are not the
    submitted ones. *)
Lemma checkout_stopped_before_profile :
  let db := store_after (admin_delete_product (Some 3) 1 with_root) in
  let r := stub_checkout live (Some 1) (POST cod_form) (Raise KeyError) 0 db in
  User_get db 1 = Some ann /\
  cart_of db 1 = [CartItem.mk 1 1 1 1] /\
  fst r = Abort 500 /\
  commits (snd r) = [] /\
  User_get (store_after r) 1 = Some ann /\
  User_get (store_after r) 1
  <> Some (set_profile (CheckoutForm.delivery_address cod_form)
                       (CheckoutForm.contact_number cod_form) ann).
Proof.
  cbv zeta. repeat split; try (vm_compute; reflexivity).
  vm_compute. discriminate.
Qed.

Lemma cart_bound_kept_outside_checkout_witness :
  cart_bounded (stub_serve live [AddToCart (Some 1) 1; UpdateCart (Some 1) 1 (Some 7)]
                  last_mouse).
Proof.
  apply (cart_bound_kept_outside_checkout plain_sum stub_hmac stub_loads stub_numeric stub_text live
           [AddToCart (Some 1) 1; UpdateCart (Some 1) 1 (Some 7)] last_mouse).
  - repeat constructor.
  - intros item [].
  - constructor.
Defined.

(** C8, as stated, fails: Ann puts the last mouse in her cart and checks
    out by UPI; the checkout reserves the mouse (stock 0) and keeps her
    cart row (quantity 1), which is now above the stock. *)
Lemma online_checkout_breaks_cart_bound :
  let requests := [AddToCart (Some 1) 1;
                   Checkout (Some 1) (POST upi_form) (Ok "order_R1") 0] in
  cart_bounded last_mouse /\
  cart_items (stub_serve live requests last_mouse) = [CartItem.mk 1 1 1 1] /\
  Product_get (stub_serve live requests last_mouse) 1 = Some (mouse 0) /\
  ~ cart_bounded (stub_serve live requests last_mouse).
Proof.
  cbv zeta. split; [|split; [|split]].
  - intros item [].
  - vm_compute. reflexivity.
  - vm_compute. reflexivity.
  - intros Hbound.
    destruct (Hbound (CartItem.mk 1 1 1 1)) as (product & Hproduct & Hq).
    + vm_compute. auto.
    + vm_compute in Hproduct. injection Hproduct as <-. simpl in Hq. lia.
Qed.

(** ** Worked cases of the further properties *)

Lemma logged_out_requests_write_nothing_witness :
  fst (stub_handle live (AddToCart None 1) last_mouse) = Redirect "login" /\
  untouched last_mouse (snd (stub_handle live (Checkout None GET (Raise KeyError) 0) last_mouse)).
Proof.
  split.
  - apply (logged_out_requests_write_nothing plain_sum stub_hmac stub_loads stub_numeric
             stub_text live (AddToCart None 1) last_mouse). exact I.
  - apply (logged_out_requests_write_nothing plain_sum stub_hmac stub_loads stub_numeric
             stub_text live (Checkout None GET (Raise KeyError) 0) last_mouse). exact I.
Defined.

Lemma update_cart_sets_quantity_witness :
  CartItem_get (store_after (update_cart (Some 1) 1 (Some 7) one_in_cart)) 1
  = Some (CartItem.mk 1 1 1 5).
Proof.
  destruct (update_cart_sets_quantity 1 1 7 one_in_cart (CartItem.mk 1 1 1 1))
    as (_ & _ & Hset & _).
  - reflexivity.
  - reflexivity.
  - apply (Hset ltac:(lia) (mouse 5)). reflexivity.
Defined.

Lemma cart_requests_leave_other_carts_witness :
  carts_of_others 1 (store_after (stub_handle live (UpdateCart (Some 1) 2 (Some 0)) two_carts))
  = [CartItem.mk 2 2 1 2].
Proof.
  destruct (cart_requests_leave_other_carts plain_sum stub_hmac stub_loads stub_numeric
              stub_text live 1 (UpdateCart (Some 1) 2 (Some 0)) two_carts) as (Hothers & _).
  - reflexivity.
  - unfold cart_keyed. simpl. repeat constructor; simpl; intuition discriminate.
  - exact Hothers.
Defined.

Lemma one_cart_row_per_product_witness :
  cart_pairs_unique
    (stub_serve live [AddToCart (Some 1) 1; AddToCart (Some 1) 1; AddToCart (Some 2) 1]
       two_carts).
Proof.
  apply (one_cart_row_per_product plain_sum stub_hmac stub_loads stub_numeric stub_text).
  unfold cart_pairs_unique. simpl. repeat constructor; simpl; intuition discriminate.
Defined.

Lemma stock_never_negative_witness :
  stock_nonneg
    (stub_serve live
       [AddToCart (Some 1) 1; Checkout (Some 1) (POST cod_form) (Raise KeyError) 0;
        AddToCart (Some 1) 1; Checkout (Some 1) (POST cod_form) (Raise KeyError) 0]
       last_mouse).
Proof.
  apply (stock_never_negative plain_sum stub_hmac stub_loads stub_numeric stub_text).
  - unfold cart_pairs_unique. simpl. constructor.
  - intros product [<- | []]. simpl. lia.
Defined.



Lemma webhook_rejects_invalid_json_witness :
  fst (stub_webhook live "not json" (Some "whsec:not json") awaiting_payment)
  = Reply "Invalid JSON" 400.
Proof.
  apply (webhook_rejects_invalid_json stub_hmac stub_loads stub_numeric stub_text
           live "not json" (Some "whsec:not json") awaiting_payment).
  - exists "whsec", "whsec:not json". repeat split; try reflexivity; discriminate.
  - reflexivity.
Defined.



Lemma webhook_malformed_envelope_witness :
  let r := stub_webhook_more live "empty" (Some "whsec:empty") awaiting_payment in
  fst r = Reply "Internal Server Error" 500 /\ untouched awaiting_payment (snd r).
Proof.
  apply (webhook_malformed_envelope stub_hmac stub_loads_more stub_numeric stub_text
           live "empty" (Some "whsec:empty") (PDict []) awaiting_payment).
  - exists "whsec", "whsec:empty". repeat split; try reflexivity; discriminate.
  - left. exists KeyError. reflexivity.
Defined.

Lemma captured_clears_cart_named_in_notes_witness :
  cart_items (store_after
                (stub_webhook_more live "captured, bob" (Some "whsec:captured, bob")
                   awaiting_with_bob))
  = [CartItem.mk 1 1 1 1].
Proof.
  destruct (captured_clears_cart_named_in_notes stub_hmac stub_loads_more stub_numeric
              stub_text live "captured, bob" (Some "whsec:captured, bob")
              (envelope "payment.captured"
                 [("internal_order_id", PInt 1); ("user_id", PInt 2)])
              (PStr "order_R1") (PInt 1) 2 (order_1 "Payment Initiated") awaiting_with_bob)
    as (Hcart & _).
  - exists "whsec", "whsec:captured, bob". repeat split; try reflexivity; discriminate.
  - repeat split. exists (PStr "pay_1"). reflexivity.
  - reflexivity.
  - reflexivity.
  - reflexivity.
  - discriminate.
  - reflexivity.
  - reflexivity.
  - reflexivity.
  - exact Hcart.
Defined.

Lemma webhook_leaves_settled_orders_witness :
  In (order_1 "Confirmed")
     (orders (store_after
                (stub_webhook live "failed" (Some "whsec:failed") already_confirmed))).
Proof.
  destruct (webhook_leaves_settled_orders stub_hmac stub_loads stub_numeric stub_text
              live "failed" (Some "whsec:failed") already_confirmed) as (_ & Hstay & _).
  - simpl. repeat constructor. simpl. tauto.
  - apply Hstay; [simpl; auto | simpl; discriminate].
Defined.

Lemma register_keeps_users_unique_witness :
  users_unique (store_after (register None (RegisterSubmit bob_signs_up) "hash of s3cret"
                               last_mouse)).
Proof.
  apply (register_keeps_users_unique None (RegisterSubmit bob_signs_up) "hash of s3cret"
           last_mouse).
  unfold users_unique. simpl. repeat split; repeat constructor; simpl; tauto.
Defined.

Lemma register_then_login_witness :
  login stub_check None (LoginSubmit "bob" "s3cret")
    (store_after (register None (RegisterSubmit bob_signs_up) "hash of s3cret" last_mouse))
  = (Redirect "index", Some 2).
Proof.
  apply (register_then_login stub_check bob_signs_up "hash of s3cret" "s3cret" last_mouse).
  - reflexivity.
  - reflexivity.
Defined.

Lemma catalogue_needs_admin_witness :
  fst (admin_delete_product (Some 1) 1 with_root) = Redirect "index" /\
  fst (admin_add_product None ProductPage with_root) = Redirect "login" /\
  untouched with_root (snd (admin_delete_product (Some 1) 1 with_root)).
Proof.
  destruct (catalogue_needs_admin (Some 1) 1 ProductPage with_root)
    as (_ & _ & Hreply & Hsame).
  - intros (user_id & user & Hsession & _ & Huser & Hadmin).
    injection Hsession as <-. vm_compute in Huser. injection Huser as <-. discriminate.
  - destruct (catalogue_needs_admin None 1 ProductPage with_root) as ((Hlogin & _) & _).
    + intros (user_id & user & Hsession & _). discriminate.
    + exact (conj Hreply (conj Hlogin Hsame)).
Defined.

Lemma checkout_after_product_deleted_witness :
  let db' := store_after (admin_delete_product (Some 3) 1 with_root) in
  fst (stub_checkout live (Some 1) GET (Raise KeyError) 0 db') = Abort 500.
Proof.
  destruct (checkout_after_product_deleted plain_sum live (Some 3) 1 1 (CartItem.mk 1 1 1 1)
              GET (Raise KeyError) 0 with_root) as (_ & _ & Hreply & _).
  - exists 3, root. repeat split; try reflexivity; discriminate.
  - simpl. auto.
  - reflexivity.
  - discriminate.
  - exact Hreply.
Defined.


Lemma accounts_stay_unique_witness :
  users_unique
    (stub_browse live
       [Register None (RegisterSubmit bob_signs_up) "hash of s3cret";
        Profile (Some 1) (ProfileSubmit ann_as_root);
        Shop (Checkout (Some 1) (POST cod_form) (Raise KeyError) 0)]
       with_root).
Proof.
  apply (accounts_stay_unique plain_sum stub_hmac stub_loads stub_numeric stub_text).
  unfold users_unique. simpl. repeat split; repeat constructor; simpl; intuition discriminate.
Defined.
